(** * Transaction feed of the account explorer (src/app/page.tsx)

    A shallow embedding of the pagination / fallback controller of the
    [AccountTransactions] component: the six [useState] cells, the
    [useQuery] completion callback, the two asynchronous "load more"
    handlers, the reset effect, and the REST page fetcher
    [getAccountTransactionsRest].

    Modelling decisions.
    - The component state is a record; every [setX] of the source is a
      function on that record, and functional updates ([prev => ...]) read
      the state they are applied to.
    - An [async] handler is split at its [await]: the part before it
      ([..._start]) runs on the rendered state and yields the request it
      issues together with the values the closure captured; the part after
      it ([..._settle]) runs on the state found when the promise settles.
    - Every event (a click, a settling promise, a new prop) is handled on
      the state of the latest render: React re-renders between events.
    - Transaction versions are integers ([Z]): the number the indexer
      sends, or the integer the node's decimal string denotes.  [parseInt]
      and [- 1] give JavaScript numbers, so their results are rounded to
      the nearest double; below 2^53 they are exact.  A call that spreads
      an array into its arguments throws once the array is longer than
      the engine allows; that length is a parameter ([Js.Engine]).
      Records are typed after the GraphQL selection set and the fields the
      REST handler reads.
    - The request that [useQuery] itself makes for the first page is
      Apollo's; the model sees it only through [onCompleted], and records
      as sent the requests of the "load more" handlers. *)

From Stdlib Require Import String ZArith Bool Arith Lia List.
Import ListNotations.
Open Scope string_scope.
Open Scope nat_scope.
Open Scope list_scope.

(** ** JavaScript numbers as far as the controller uses them *)

Module Js.

(** The value of [Math.min(...xs)]: an integer, or [Infinity] for no
    argument. *)
Inductive Number : Type :=
| Num (z : Z)
| PosInfinity.

Definition min2 (a b : Number) : Number :=
  match a, b with
  | Num x, Num y => Num (Z.min x y)
  | Num x, PosInfinity => Num x
  | PosInfinity, b' => b'
  end.

(** The value [Math.min] returns for the arguments [xs]; the call that
    spreads an array into them is [spread] below. *)
Definition Math_min (xs : list Z) : Number :=
  fold_right (fun x acc => min2 (Num x) acc) PosInfinity xs.

(** The double nearest to the integer [z], ties to the even mantissa
    (for integers that do not overflow a double). *)
Definition toDouble (z : Z) : Z :=
  let a := Z.abs z in
  if (a <? 2 ^ 53)%Z then z
  else
    let e := (Z.log2 a - 52)%Z in
    let q := Z.shiftr a e in
    let r := (a - Z.shiftl q e)%Z in
    let half := Z.shiftl 1 (e - 1) in
    let q' := if (half <? r)%Z || ((r =? half)%Z && Z.odd q)
              then (q + 1)%Z else q in
    (Z.sgn z * Z.shiftl q' e)%Z.

(** [n - 1] *)
Definition minus_one (n : Number) : Number :=
  match n with
  | Num z => Num (toDouble (z - 1))
  | PosInfinity => PosInfinity
  end.

(** [parseInt(v)] on an integer version, whether [v] is a number or a
    decimal string of at most 20 digits (every 64-bit version is). *)
Definition parseInt (v : Z) : Z := toDouble v.

(** A version that JavaScript numbers hold exactly, with its
    predecessor. *)
Definition safeVersion (v : Z) : Prop := (0 <= v < 2 ^ 53)%Z.

(** How a [try] block, or an awaited promise, ends. *)
Inductive Try (A : Type) : Type :=
| Returned (a : A)
| Thrown.
Arguments Returned {A} a.
Arguments Thrown {A}.

(** What the model takes from the JavaScript engine: the largest number
    of arguments a call can receive from a spread array. *)
Class Engine : Type := mkEngine {
  argumentLimit : N
}.

(** [f(...xs)]: a RangeError when [xs] has too many elements. *)
Definition spread {JS : Engine} {A : Type} (f : list Z -> A) (xs : list Z)
    : Try A :=
  if (N.of_nat (length xs) <=? argumentLimit)%N then Returned (f xs)
  else Thrown.

End Js.

(** ** The REST page fetcher *)

Module Rest.

(** One element of the node's transaction list, with the three fields
    the handler reads: [tx.version], [tx.type], [tx.sender]
    ([None] is [undefined]).  The node writes the version as a decimal
    string; [version] is the integer it denotes. *)
Record Tx : Type := mkTx {
  version : Z;
  type : string;
  sender : option string
}.

(** What [await response.json()] does. *)
Inductive Body : Type :=
| BodyUnparsable                 (* json() rejects *)
| BodyArray (txs : list Tx)      (* Array.isArray(transactions) *)
| BodyOther.                     (* any other JSON value *)

Record Response : Type := mkResponse {
  status : Z;
  body : Body
}.

(** What [await fetch(url)] does. *)
Inductive FetchResult : Type :=
| FetchRejected                  (* fetch throws: network failure *)
| FetchResolved (r : Response).

(** [response.ok]: the status is in the range 200-299. *)
Definition ok (r : Response) : bool :=
  ((200 <=? status r) && (status r <=? 299))%Z.

(** The query string built by [getAccountTransactionsRest]: the fixed
    limit, and [start] when it is not [undefined]. *)
Record Params : Type := mkParams {
  limit : string;
  start : option Js.Number
}.

Definition params (start : option Js.Number) : Params :=
  {| limit := "1000000"; start := start |}.

Definition url (address : string) : string :=
  ("https://fullnode.testnet.aptoslabs.com/v1/accounts/" ++ address
     ++ "/transactions")%string.

(** The body of the [try]: what follows [await fetch(...)], given what
    the fetch did. *)
Definition try_block (net : FetchResult) : Js.Try (list Tx) :=
  match net with
  | FetchRejected => Js.Thrown
  | FetchResolved r =>
      if negb (ok r) then Js.Thrown
      else match body r with
           | BodyUnparsable => Js.Thrown
           | BodyArray txs => Js.Returned txs
           | BodyOther => Js.Returned []
           end
  end.

(** The [try] with its [catch], which returns [[]]. *)
Definition afterFetch (net : FetchResult) : Js.Try (list Tx) :=
  match try_block net with
  | Js.Returned txs => Js.Returned txs
  | Js.Thrown => Js.Returned []
  end.

(** [getAccountTransactionsRest(address, start)] over a network that
    answers the request for [url] and [params] with [fetch url params]. *)
Definition getAccountTransactionsRest
    (fetch : string -> Params -> FetchResult)
    (address : string) (start : option Js.Number) : Js.Try (list Tx) :=
  afterFetch (fetch (url address) (params start)).

End Rest.

(** ** The component state *)

Record UserTransaction : Type := mkUserTransaction {
  sender : option string
}.

(** A held record, in the shape of the GraphQL selection set. *)
Record Transaction : Type := mkTransaction {
  transaction_version : Z;
  __typename : string;
  user_transaction : option UserTransaction
}.

Record FeedState : Type := mkFeed {
  allTransactions : list Transaction;
  currentPage : nat;
  isLoadingMore : bool;
  hasMore : bool;
  useRestAPI : bool;
  restStartVersion : option Js.Number
}.

Definition pageSize : nat := 100.

(** The threshold of [setHasMore(restTransactions.length >= 1000)]. *)
Definition restThreshold : nat := 1000.

(** The [useState] initial values. *)
Definition initialState : FeedState :=
  {| allTransactions := [];
     currentPage := 0;
     isLoadingMore := false;
     hasMore := true;
     useRestAPI := false;
     restStartVersion := None |}.

Definition setAllTransactions (f : list Transaction -> list Transaction)
    (s : FeedState) : FeedState :=
  {| allTransactions := f (allTransactions s);
     currentPage := currentPage s;
     isLoadingMore := isLoadingMore s;
     hasMore := hasMore s;
     useRestAPI := useRestAPI s;
     restStartVersion := restStartVersion s |}.

Definition setCurrentPage (f : nat -> nat) (s : FeedState) : FeedState :=
  {| allTransactions := allTransactions s;
     currentPage := f (currentPage s);
     isLoadingMore := isLoadingMore s;
     hasMore := hasMore s;
     useRestAPI := useRestAPI s;
     restStartVersion := restStartVersion s |}.

Definition setIsLoadingMore (b : bool) (s : FeedState) : FeedState :=
  {| allTransactions := allTransactions s;
     currentPage := currentPage s;
     isLoadingMore := b;
     hasMore := hasMore s;
     useRestAPI := useRestAPI s;
     restStartVersion := restStartVersion s |}.

Definition setHasMore (b : bool) (s : FeedState) : FeedState :=
  {| allTransactions := allTransactions s;
     currentPage := currentPage s;
     isLoadingMore := isLoadingMore s;
     hasMore := b;
     useRestAPI := useRestAPI s;
     restStartVersion := restStartVersion s |}.

Definition setUseRestAPI (b : bool) (s : FeedState) : FeedState :=
  {| allTransactions := allTransactions s;
     currentPage := currentPage s;
     isLoadingMore := isLoadingMore s;
     hasMore := hasMore s;
     useRestAPI := b;
     restStartVersion := restStartVersion s |}.

Definition setRestStartVersion (v : option Js.Number) (s : FeedState)
    : FeedState :=
  {| allTransactions := allTransactions s;
     currentPage := currentPage s;
     isLoadingMore := isLoadingMore s;
     hasMore := hasMore s;
     useRestAPI := useRestAPI s;
     restStartVersion := v |}.

(** ** Requests and captured closures *)

Inductive Request : Type :=
| GraphQLQuery (address : string) (limit offset : nat)
| RestQuery (address : string) (params : Rest.Params).

(** A handler suspended at its [await]: the request it issued and the
    [allTransactions] of the render it was created in. *)
Record Call : Type := mkCall {
  request : Request;
  captured : list Transaction
}.

(** How a pending request settles. *)
Inductive Reply : Type :=
| GraphQLData (account_transactions : option (list Transaction))
| GraphQLError
| RestReply (net : Rest.FetchResult).

(** ** useQuery's [onCompleted] *)

Definition onCompleted (data : option (list Transaction)) (s : FeedState)
    : FeedState :=
  match data with
  | Some txs =>
      setHasMore (length txs =? pageSize)
        (setAllTransactions (fun _ => txs) s)
  | None => s
  end.

(** ** loadMoreWithRest *)

(** The object built for each REST transaction. *)
Definition formatTransaction (tx : Rest.Tx) : Transaction :=
  {| transaction_version := Rest.version tx;
     __typename :=
       if String.eqb (Rest.type tx) "user_transaction"
       then "UserTransaction" else "SystemTransaction";
     user_transaction :=
       if String.eqb (Rest.type tx) "user_transaction"
       then Some {| sender := Rest.sender tx |} else None |}.

(** [loadMoreWithRest] up to the [fetch] inside
    [getAccountTransactionsRest(address, restStartVersion)]. *)
Definition loadMoreWithRest_start (address : string) (s : FeedState)
    : FeedState * option Call :=
  if isLoadingMore s || negb (hasMore s) then (s, None)
  else (setIsLoadingMore true s,
        Some {| request := RestQuery address (Rest.params (restStartVersion s));
                captured := allTransactions s |}).

(** [loadMoreWithRest] from the moment that [fetch] settles with [net].
    When the spread of [Math.min] throws, the records are already
    appended and the [catch] runs on that state. *)
Definition loadMoreWithRest_settle {JS : Js.Engine} (net : Rest.FetchResult)
    (s : FeedState) : FeedState :=
  let s1 :=
    match Rest.afterFetch net with
    | Js.Returned restTransactions =>
        if 0 <? length restTransactions then
          let formattedTransactions := map formatTransaction restTransactions in
          let s' :=
            setAllTransactions (fun prev => prev ++ formattedTransactions) s in
          match
            Js.spread Js.Math_min
              (map (fun tx => Js.parseInt (Rest.version tx)) restTransactions)
          with
          | Js.Returned oldestVersion =>
              let s'' :=
                setRestStartVersion (Some (Js.minus_one oldestVersion)) s' in
              setHasMore (restThreshold <=? length restTransactions) s''
          | Js.Thrown => setHasMore false s'  (* catch *)
          end
        else setHasMore false s
    | Js.Thrown => setHasMore false s        (* catch *)
    end in
  setIsLoadingMore false s1.                  (* finally *)

(** ** loadMoreWithGraphQL *)

Definition loadMoreWithGraphQL_start (address : string) (s : FeedState)
    : FeedState * option Call :=
  if isLoadingMore s || negb (hasMore s) then (s, None)
  else
    let nextOffset := (currentPage s + 1) * pageSize in
    (setIsLoadingMore true s,
     Some {| request := GraphQLQuery address pageSize nextOffset;
             captured := allTransactions s |}).

(** [result] is what [await fetchMore(...)] gives: [Js.Returned data] with
    [data] the value of [result.data?.account_transactions] ([None] when it
    is missing), or [Js.Thrown] when the promise rejects.  When the spread
    of [Math.min] throws, [setUseRestAPI(true)] has run and the [catch]
    follows. *)
Definition loadMoreWithGraphQL_settle {JS : Js.Engine}
    (closure : list Transaction)
    (result : Js.Try (option (list Transaction))) (s : FeedState) : FeedState :=
  let s1 :=
    match result with
    | Js.Returned data =>
        let newTransactions :=
          match data with Some txs => txs | None => [] end in  (* || [] *)
        if 0 <? length newTransactions then
          let s' := setAllTransactions (fun prev => prev ++ newTransactions) s in
          let s'' := setCurrentPage (fun prev => prev + 1) s' in
          setHasMore (length newTransactions =? pageSize) s''
        else
          let s' := setUseRestAPI true s in
          if 0 <? length closure then
            match
              Js.spread Js.Math_min
                (map (fun tx => Js.parseInt (transaction_version tx)) closure)
            with
            | Js.Returned oldestVersion =>
                setHasMore true
                  (setRestStartVersion (Some (Js.minus_one oldestVersion)) s')
            | Js.Thrown =>                            (* catch *)
                setHasMore true (setUseRestAPI true s')
            end
          else setHasMore true s'
    | Js.Thrown =>                                    (* catch *)
        setHasMore true (setUseRestAPI true s)
    end in
  setIsLoadingMore false s1.                          (* finally *)

(** ** loadMoreTransactions and the reset effect *)

Definition loadMoreTransactions (address : string) (s : FeedState)
    : FeedState * option Call :=
  if useRestAPI s then loadMoreWithRest_start address s
  else loadMoreWithGraphQL_start address s.

(** The body of the [useEffect] that depends on [address]. *)
Definition resetOnAddressChange (s : FeedState) : FeedState :=
  setRestStartVersion None
    (setUseRestAPI false
      (setHasMore true
        (setCurrentPage (fun _ => 0)
          (setAllTransactions (fun _ => []) s)))).

(** The handler of a pending call, applied to its settlement.  A reply of
    the other backend's kind does not occur and leaves the state alone. *)
Definition settle {JS : Js.Engine} (c : Call) (r : Reply) (s : FeedState)
    : FeedState :=
  match request c, r with
  | GraphQLQuery _ _ _, GraphQLData d =>
      loadMoreWithGraphQL_settle (captured c) (Js.Returned d) s
  | GraphQLQuery _ _ _, GraphQLError =>
      loadMoreWithGraphQL_settle (captured c) Js.Thrown s
  | RestQuery _ _, RestReply net => loadMoreWithRest_settle net s
  | _, _ => s
  end.

(** ** The component among its events *)

(** The component with its [address] prop, the handlers suspended at an
    [await], and the requests the "load more" handlers have issued so far
    (oldest first). *)
Record World : Type := mkWorld {
  address : string;
  feed : FeedState;
  pending : list Call;
  sent : list Request
}.

Definition initialWorld (a : string) : World :=
  {| address := a; feed := initialState; pending := []; sent := [] |}.

Inductive Event : Type :=
| AddressChanged (a : string)          (* the parent passes a new address *)
| QueryCompleted (data : option (list Transaction))
                                       (* useQuery calls onCompleted *)
| LoadMoreClicked                      (* loadMoreTransactions() *)
| Settled (i : nat) (r : Reply)        (* the i-th pending request settles *)
| TryRestClicked.                      (* "Try REST API instead" *)

Definition answers (q : Request) (r : Reply) : bool :=
  match q, r with
  | GraphQLQuery _ _ _, GraphQLData _ => true
  | GraphQLQuery _ _ _, GraphQLError => true
  | RestQuery _ _, RestReply _ => true
  | _, _ => false
  end.

Definition removeNth {A : Type} (i : nat) (l : list A) : list A :=
  firstn i l ++ skipn (S i) l.

Definition step {JS : Js.Engine} (w : World) (e : Event) : World :=
  match e with
  | AddressChanged a =>
      if String.eqb a (address w) then w
      else {| address := a;
              feed := resetOnAddressChange (feed w);
              pending := pending w;
              sent := sent w |}
  | QueryCompleted data =>
      if useRestAPI (feed w) then w              (* skip: useRestAPI *)
      else {| address := address w;
              feed := onCompleted data (feed w);
              pending := pending w;
              sent := sent w |}
  | LoadMoreClicked =>
      match loadMoreTransactions (address w) (feed w) with
      | (s, Some c) =>
          {| address := address w;
             feed := s;
             pending := pending w ++ [c];
             sent := sent w ++ [request c] |}
      | (s, None) =>
          {| address := address w;
             feed := s;
             pending := pending w;
             sent := sent w |}
      end
  | Settled i r =>
      match nth_error (pending w) i with
      | Some c =>
          if answers (request c) r then
            {| address := address w;
               feed := settle c r (feed w);
               pending := removeNth i (pending w);
               sent := sent w |}
          else w
      | None => w
      end
  | TryRestClicked =>
      {| address := address w;
         feed := setUseRestAPI true (feed w);
         pending := pending w;
         sent := sent w |}
  end.

Definition run {JS : Js.Engine} (evs : list Event) (w : World) : World :=
  fold_left step evs w.

(** One "load more" call against the indexed backend that runs to
    completion with the page [p]. *)
Definition loadMoreIndexed {JS : Js.Engine} (a : string) (s : FeedState)
    (p : list Transaction) : FeedState :=
  match loadMoreTransactions a s with
  | (s1, Some c) => settle c (GraphQLData (Some p)) s1
  | (s1, None) => s1
  end.

Definition isRestQuery (q : Request) : bool :=
  match q with
  | RestQuery _ _ => true
  | GraphQLQuery _ _ _ => false
  end.

(** The event leaves the [address] prop at [a]. *)
Definition keepsAddress (a : string) (e : Event) : bool :=
  match e with
  | AddressChanged a' => String.eqb a' a
  | _ => true
  end.

(** The event is a click on "load more". *)
Definition isLoadMoreClicked (e : Event) : bool :=
  match e with
  | LoadMoreClicked => true
  | _ => false
  end.

(** The least element of a list of versions. *)
Definition isMinimum (m : Z) (vs : list Z) : Prop :=
  In m vs /\ forall v, In v vs -> (m <= v)%Z.

(** The engine of the closed examples below: one that lets a call spread
    65535 arguments.  The theorems hold for every engine. *)
#[global] Instance exampleEngine : Js.Engine :=
  {| Js.argumentLimit := 65535 |}.

(** The [__typename] of the rows the indexer returns for the query's
    [account_transactions] field: the name of their GraphQL type. *)
Definition indexedTypename : string := "account_transactions".

(** Sample data: [n] indexed records with versions [top], [top - 1], ... *)
Fixpoint samplePage (top : Z) (n : nat) : list Transaction :=
  match n with
  | 0 => []
  | S k =>
      {| transaction_version := top;
         __typename := indexedTypename;
         user_transaction := None |} :: samplePage (top - 1) k
  end.

(** ** What [AccountTransactions] renders *)

(** The component's [return] statements, reduced to what they decide:
    which of the four views is shown, and in the feed view which controls
    and notes are present.  Styling and captions are left out.  [loading]
    and [error] are what [useQuery] reports ([error] is [error.message]). *)

Inductive Direction : Type :=
| Send
| Receive.

(** [address === transaction.user_transaction?.sender] *)
Definition isSender (address : string) (t : Transaction) : bool :=
  match user_transaction t with
  | Some u =>
      match sender u with
      | Some x => String.eqb address x
      | None => false
      end
  | None => false
  end.

Definition direction (address : string) (t : Transaction) : Direction :=
  if isSender address t then Send else Receive.

(** One card of the list: version, type and direction. *)
Record Row : Type := mkRow {
  rowVersion : Z;
  rowType : string;
  rowDirection : Direction
}.

Definition row (address : string) (t : Transaction) : Row :=
  {| rowVersion := transaction_version t;
     rowType := __typename t;
     rowDirection := direction address t |}.

Record FeedPanel : Type := mkFeedPanel {
  loadedCount : nat;              (* Loaded Transactions: n *)
  usingRest : bool;               (* Using: REST API / GraphQL API *)
  loadMoreButton : option bool;   (* the two buttons: rendered under
                                     [hasMore &&], with their [disabled] *)
  allLoadedBanner : bool;         (* All available transactions loaded *)
  limitsWarning : bool;           (* Approaching GraphQL limits *)
  rows : list Row
}.

Inductive View : Type :=
| LoadingView
| ErrorView (message : string)    (* with the "Try REST API instead" button *)
| FeedView (panel : FeedPanel)
| NoTransactionsView.

Definition mainView (address : string) (s : FeedState) : View :=
  if 0 <? length (allTransactions s) then
    FeedView
      {| loadedCount := length (allTransactions s);
         usingRest := useRestAPI s;
         loadMoreButton :=
           if hasMore s then Some (isLoadingMore s) else None;
         allLoadedBanner :=
           negb (hasMore s) && (pageSize <? length (allTransactions s));
         limitsWarning :=
           hasMore s && (negb (useRestAPI s)
                         && (1000 <=? length (allTransactions s)));
         rows := map (row address) (allTransactions s) |}
  else NoTransactionsView.

Definition render (loading : bool) (error : option string)
    (address : string) (s : FeedState) : View :=
  if loading && (length (allTransactions s) =? 0) then LoadingView
  else
    match error with
    | Some message =>
        if negb (useRestAPI s) then ErrorView message
        else mainView address s
    | None => mainView address s
    end.

(** A "load more" button is on screen and not disabled. *)
Definition loadMoreClickable (v : View) : bool :=
  match v with
  | FeedView p =>
      match loadMoreButton p with
      | Some disabled => negb disabled
      | None => false
      end
  | _ => false
  end.

(** The "Try REST API instead" button is on screen. *)
Definition tryRestClickable (v : View) : bool :=
  match v with
  | ErrorView _ => true
  | _ => false
  end.

(** The event is one the rendered component offers: a click needs its
    button on screen, for some [loading] and [error] that Apollo reports. *)
Definition offered (w : World) (e : Event) : Prop :=
  match e with
  | LoadMoreClicked =>
      exists loading error,
        loadMoreClickable (render loading error (address w) (feed w)) = true
  | TryRestClicked =>
      exists loading error,
        tryRestClickable (render loading error (address w) (feed w)) = true
  | _ => True
  end.

(** Every event of the sequence is offered in the state it meets. *)
Fixpoint allOffered {JS : Js.Engine} (w : World) (evs : list Event) : Prop :=
  match evs with
  | [] => True
  | e :: rest => offered w e /\ allOffered (step w e) rest
  end.

(** ** getTransactionSender *)

Module Sender.

(** The value of [await response.json()], as far as [json.sender] tells
    values apart. *)
Inductive Json : Type :=
| JsonNull                        (* reading [.sender] throws *)
| JsonObject (sender : option string)
                                  (* an object; [None]: no sender, or null *)
| JsonOther.                      (* a number, string, boolean or array *)

Inductive Body : Type :=
| BodyUnparsable
| BodyParsed (j : Json).

Record Response : Type := mkResponse {
  status : Z;
  body : Body
}.

Inductive FetchResult : Type :=
| FetchRejected
| FetchResolved (r : Response).

Definition ok (r : Response) : bool :=
  ((200 <=? status r) && (status r <=? 299))%Z.

(** [json.sender || null] *)
Definition senderOrNull (j : Json) : Js.Try (option string) :=
  match j with
  | JsonNull => Js.Thrown
  | JsonObject (Some s) =>
      if String.eqb s "" then Js.Returned None else Js.Returned (Some s)
  | JsonObject None => Js.Returned None
  | JsonOther => Js.Returned None
  end.

Definition try_block (net : FetchResult) : Js.Try (option string) :=
  match net with
  | FetchRejected => Js.Thrown
  | FetchResolved r =>
      if negb (ok r) then Js.Thrown
      else match body r with
           | BodyUnparsable => Js.Thrown
           | BodyParsed j => senderOrNull j
           end
  end.

(** [getTransactionSender(version)] over a network that answers the
    request for the transaction [version] with [fetch version]. *)
Definition getTransactionSender (fetch : Z -> FetchResult) (version : Z)
    : Js.Try (option string) :=
  match try_block (fetch version) with
  | Js.Returned r => Js.Returned r
  | Js.Thrown => Js.Returned None
  end.

End Sender.

(** ** The [Home] component *)

(** JavaScript strings are modelled by [string] with each character a code
    unit below 256; among those, [trim] removes the code units 9-13, 32
    and 160. *)

Module JsString.

Definition isWhiteSpace (c : Ascii.ascii) : bool :=
  existsb (N.eqb (Ascii.N_of_ascii c)) [9; 10; 11; 12; 13; 32; 160]%N.

Fixpoint trimStart (s : string) : string :=
  match s with
  | EmptyString => EmptyString
  | String c rest => if isWhiteSpace c then trimStart rest else s
  end.

Fixpoint trimEnd (s : string) : string :=
  match s with
  | EmptyString => EmptyString
  | String c rest =>
      match trimEnd rest with
      | EmptyString => if isWhiteSpace c then EmptyString else String c EmptyString
      | kept => String c kept
      end
  end.

(** [s.trim()] *)
Definition trim (s : string) : string := trimEnd (trimStart s).

(** A string in a condition: true unless empty. *)
Definition truthy (s : string) : bool := negb (String.eqb s "").

(** The character [:]. *)
Definition colon : Ascii.ascii := Ascii.ascii_of_nat 58.

(** [s.split('::')], with [cur] the piece being read. *)
Fixpoint splitFrom (cur : string) (s : string) : list string :=
  match s with
  | EmptyString => [cur]
  | String c rest =>
      match rest with
      | String c' rest' =>
          if Ascii.eqb c colon && Ascii.eqb c' colon
          then cur :: splitFrom EmptyString rest'
          else splitFrom (cur ++ String c EmptyString)%string rest
      | EmptyString => splitFrom (cur ++ String c EmptyString)%string rest
      end
  end.

Definition split (s : string) : list string := splitFrom EmptyString s.

(** The string has no [:] in it. *)
Fixpoint noColon (s : string) : bool :=
  match s with
  | EmptyString => true
  | String c rest => negb (Ascii.eqb c colon) && noColon rest
  end.

(** The string does not begin with white space. *)
Definition startsClean (s : string) : Prop :=
  match s with
  | EmptyString => True
  | String c _ => isWhiteSpace c = false
  end.

End JsString.

Module Home.

(** *** The account data, with the fields the component reads *)

Record Metadata : Type := mkMetadata {
  decimals : option Z;
  symbol : option string
}.

Record Coin : Type := mkCoin {
  amount : Z;
  asset_type : option string;
  metadata : option Metadata
}.

Record TokenData : Type := mkTokenData {
  token_data_id : option string;
  token_uri : option string;
  token_name : option string;
  collection_name : option string
}.

(** [ownTokenDataId] is the NFT's own [token_data_id]. *)
Record Nft : Type := mkNft {
  current_token_data : option TokenData;
  ownTokenDataId : option string
}.

Record Fund : Type := mkFund {
  sequence_number : option string
}.

(** The modules are stored and never read; their entries stay opaque. *)
Definition Modules : Type := list string.

Record AccountData : Type := mkAccountData {
  fund : Fund;
  modules : Modules;
  coinCounts : Z;
  coinData : list Coin;
  allCoinData : list Coin;
  nftData : list Nft
}.

(** *** The five [useState] cells *)

Record State : Type := mkState {
  accountData : option AccountData;
  address : string;
  inputAddress : string;
  loading : bool;
  copyToast : option string
}.

Definition defaultAddress : string :=
  "0x1b63ce396e7dab07adf55a93721de8e4a134dcaa059f0e81f47b2009e7670b8e".

Definition initialState : State :=
  {| accountData := None;
     address := defaultAddress;
     inputAddress := "";
     loading := false;
     copyToast := None |}.

Definition setAccountData (d : option AccountData) (s : State) : State :=
  {| accountData := d;
     address := address s;
     inputAddress := inputAddress s;
     loading := loading s;
     copyToast := copyToast s |}.

Definition setAddress (a : string) (s : State) : State :=
  {| accountData := accountData s;
     address := a;
     inputAddress := inputAddress s;
     loading := loading s;
     copyToast := copyToast s |}.

Definition setInputAddress (v : string) (s : State) : State :=
  {| accountData := accountData s;
     address := address s;
     inputAddress := v;
     loading := loading s;
     copyToast := copyToast s |}.

Definition setLoading (b : bool) (s : State) : State :=
  {| accountData := accountData s;
     address := address s;
     inputAddress := inputAddress s;
     loading := b;
     copyToast := copyToast s |}.

(** *** fetchAccountData *)

(** The calls to the ledger client, in the order they are awaited. *)
Inductive SdkCall : Type :=
| GetAccountInfo (accountAddress : string)
| GetAccountModules (accountAddress : string)
| GetAccountCoinsData (accountAddress : string) (limit : nat)
| GetAccountCoinAmount (accountAddress : string) (coinType : string)
| GetAccountOwnedTokens (accountAddress : string) (limit : nat).

(** How the ledger client answers each call of one [fetchAccountData]. *)
Record SdkReplies : Type := mkSdkReplies {
  getAccountInfo : Js.Try Fund;
  getAccountModules : Js.Try Modules;
  getAccountCoinsData : Js.Try (list Coin);
  getAccountCoinAmount : Js.Try Z;
  getAccountOwnedTokens : Js.Try (list Nft)
}.

(** A computation inside a [try]: the calls made so far, and a value or an
    exception. *)
Definition Awaiting (A : Type) : Type := (list SdkCall * Js.Try A)%type.

Definition ret {A : Type} (a : A) : Awaiting A := ([], Js.Returned a).

Definition bind {A B : Type} (m : Awaiting A) (f : A -> Awaiting B)
    : Awaiting B :=
  match m with
  | (calls, Js.Returned a) =>
      let (calls', r) := f a in (calls ++ calls', r)
  | (calls, Js.Thrown) => (calls, Js.Thrown)
  end.

(** [await call], answered by [reply]. *)
Definition await {A : Type} (call : SdkCall) (reply : Js.Try A) : Awaiting A :=
  ([call], reply).

(** [try { m } catch { }] around an assignment whose variable holds
    [fallback] beforehand. *)
Definition orElse {A : Type} (m : Awaiting A) (fallback : A) : Awaiting A :=
  match m with
  | (calls, Js.Thrown) => (calls, Js.Returned fallback)
  | done => done
  end.

Notation "x <- m ;; k" := (bind m (fun x => k))
  (at level 61, m at next level, right associativity).

(** The body of the outer [try]. *)
Definition try_block (targetAddress : string) (sdk : SdkReplies)
    : Awaiting AccountData :=
  fund <- await (GetAccountInfo targetAddress) (getAccountInfo sdk) ;;
  modules <- await (GetAccountModules targetAddress) (getAccountModules sdk) ;;
  allCoinData <- await (GetAccountCoinsData targetAddress 1000)
                   (getAccountCoinsData sdk) ;;
  coinCounts <- await (GetAccountCoinAmount targetAddress
                         "0x1::aptos_coin::AptosCoin")
                  (getAccountCoinAmount sdk) ;;
  nftData <- orElse (await (GetAccountOwnedTokens targetAddress 50)
                       (getAccountOwnedTokens sdk)) [] ;;
  let filteredCoinData := filter (fun coin => (0 <? amount coin)%Z) allCoinData in
  ret {| fund := fund;
         modules := modules;
         coinCounts := coinCounts;
         coinData := filteredCoinData;
         allCoinData := allCoinData;
         nftData := nftData |}.

(** [fetchAccountData(targetAddress)] up to its first [await]: the guard,
    [setLoading(true)] and [setAccountData(null)].  The second component
    tells whether the function went on. *)
Definition fetchAccountData_start (targetAddress : string) (s : State)
    : State * option string :=
  if negb (JsString.truthy targetAddress)
     || String.eqb (JsString.trim targetAddress) ""
  then (s, None)
  else (setAccountData None (setLoading true s), Some targetAddress).

(** The rest of it, once the ledger client has answered: the state it
    leaves and the calls it made. *)
Definition fetchAccountData_settle (targetAddress : string) (sdk : SdkReplies)
    (s : State) : State * list SdkCall :=
  let (calls, result) := try_block targetAddress sdk in
  let s1 :=
    match result with
    | Js.Returned data => setAccountData (Some data) s
    | Js.Thrown => setAccountData None s        (* catch *)
    end in
  (setLoading false s1, calls).                   (* finally *)

(** *** The handlers *)

Definition handleAddressSubmit (s : State) : State * option string :=
  if JsString.truthy (JsString.trim (inputAddress s)) then
    fetchAccountData_start (JsString.trim (inputAddress s))
      (setAddress (JsString.trim (inputAddress s)) s)
  else (s, None).

Definition handleKeyPress (key : string) (s : State) : State * option string :=
  if String.eqb key "Enter" then handleAddressSubmit s else (s, None).

(** [disabled] of the Search button. *)
Definition searchDisabled (s : State) : bool :=
  loading s || negb (JsString.truthy (JsString.trim (inputAddress s))).

(** *** The component among its events *)

(** The component, the targets of the [fetchAccountData] calls that are
    still awaiting the ledger client, and the client calls made. *)
Record World : Type := mkWorld {
  state : State;
  pending : list string;
  called : list SdkCall
}.

Definition initialWorld : World :=
  {| state := initialState; pending := []; called := [] |}.

Inductive Event : Type :=
| Mounted                               (* the effect with no dependency *)
| InputChanged (value : string)         (* onChange of the input *)
| KeyPressed (key : string)             (* onKeyPress of the input *)
| SearchClicked                         (* onClick of the Search button *)
| FetchSettled (i : nat) (sdk : SdkReplies).
                                        (* the i-th pending fetch finishes *)

Definition started (w : World) (r : State * option string) : World :=
  match r with
  | (s, Some target) =>
      {| state := s; pending := pending w ++ [target]; called := called w |}
  | (s, None) =>
      {| state := s; pending := pending w; called := called w |}
  end.

Definition step (w : World) (e : Event) : World :=
  match e with
  | Mounted =>
      started w (fetchAccountData_start (address (state w)) (state w))
  | InputChanged value =>
      {| state := setInputAddress value (state w);
         pending := pending w;
         called := called w |}
  | KeyPressed key => started w (handleKeyPress key (state w))
  | SearchClicked =>
      if searchDisabled (state w) then w
      else started w (handleAddressSubmit (state w))
  | FetchSettled i sdk =>
      match nth_error (pending w) i with
      | Some target =>
          let (s, calls) := fetchAccountData_settle target sdk (state w) in
          {| state := s;
             pending := removeNth i (pending w);
             called := called w ++ calls |}
      | None => w
      end
  end.

Definition run (evs : list Event) (w : World) : World :=
  fold_left step evs w.

(** *** What the cards show *)

(** [coin.asset_type?.split('::')[2] || 'Unknown Token'] *)
Definition tokenName (coin : Coin) : string :=
  match asset_type coin with
  | Some t =>
      match nth_error (JsString.split t) 2 with
      | Some name => if JsString.truthy name then name else "Unknown Token"
      | None => "Unknown Token"
      end
  | None => "Unknown Token"
  end.

(** [accountData.nftData.slice(0, 8)] *)
Definition shownNfts (d : AccountData) : list Nft := firstn 8 (nftData d).

(** The note "Showing 8 of N NFTs", with its N. *)
Definition nftNote (d : AccountData) : option nat :=
  if 8 <? length (nftData d) then Some (length (nftData d)) else None.

End Home.

(** ** Further predicates used in the statements *)

(** While the indexed backend is selected: nothing is loading between
    calls, and if more is expected the held records are exactly
    [currentPage + 1] full pages. *)
Definition alignedPages (s : FeedState) : Prop :=
  useRestAPI s = false ->
  isLoadingMore s = false /\
  (hasMore s = true ->
   length (allTransactions s) = (currentPage s + 1) * pageSize).

(** ** Predicates used in the statements *)

(** A "load more" fetch is pending exactly when [isLoadingMore] is set. *)
Definition inflightInvariant (w : World) : Prop :=
  length (pending w) = if isLoadingMore (feed w) then 1 else 0.

(** The fields of the state other than the Rest cursor. *)
Definition sameButCursor (s t : FeedState) : Prop :=
  allTransactions s = allTransactions t /\
  currentPage s = currentPage t /\
  isLoadingMore s = isLoadingMore t /\
  hasMore s = hasMore t /\
  useRestAPI s = useRestAPI t.

Definition emptyPage : Rest.FetchResult :=
  Rest.FetchResolved {| Rest.status := 200; Rest.body := Rest.BodyArray [] |}.

(** The answers that make the [try] block of the fetcher throw or see
    something that is not an array. *)
Inductive failedFetch : Rest.FetchResult -> Prop :=
| failed_transport : failedFetch Rest.FetchRejected
| failed_status (r : Rest.Response) :
    Rest.ok r = false -> failedFetch (Rest.FetchResolved r)
| failed_json (st : Z) :
    failedFetch (Rest.FetchResolved
                   {| Rest.status := st; Rest.body := Rest.BodyUnparsable |})
| failed_shape (st : Z) :
    failedFetch (Rest.FetchResolved
                   {| Rest.status := st; Rest.body := Rest.BodyOther |}).

(** * Properties *)

(** ** Auxiliary facts *)

Lemma Math_min_cons (x : Z) (xs : list Z) :
  Js.Math_min (x :: xs) = Js.min2 (Js.Num x) (Js.Math_min xs).
Proof. reflexivity. Qed.

(** On a non-empty list [Math.min] is the least element. *)
Lemma Math_min_least (xs : list Z) :
  xs <> [] -> exists m, Js.Math_min xs = Js.Num m /\ isMinimum m xs.
Proof.
  induction xs as [|x xs IH]; [congruence|intros _].
  rewrite Math_min_cons.
  destruct xs as [|y ys].
  - exists x. split; [reflexivity|].
    split; [now left|]. intros v [<-|[]]. lia.
  - destruct IH as (m & Hm & Hin & Hle); [discriminate|].
    rewrite Hm. cbn [Js.min2].
    exists (Z.min x m). split; [reflexivity|]. split.
    + destruct (Z.min_spec x m) as [[_ ->]|[_ ->]]; [now left|now right].
    + intros v [<-|Hv]; [lia|]. specialize (Hle v Hv). lia.
Qed.

(** The guard shared by both handlers. *)
Lemma loadMoreTransactions_blocked (a : string) (s : FeedState) :
  isLoadingMore s = true \/ hasMore s = false ->
  loadMoreTransactions a s = (s, None).
Proof.
  intros H. unfold loadMoreTransactions, loadMoreWithRest_start,
    loadMoreWithGraphQL_start.
  assert (G : isLoadingMore s || negb (hasMore s) = true)
    by (destruct H as [-> | ->]; [reflexivity | apply orb_true_r]).
  rewrite G. now destruct (useRestAPI s).
Qed.

Lemma loadMoreTransactions_indexed (a : string) (s : FeedState) :
  useRestAPI s = false -> isLoadingMore s = false -> hasMore s = true ->
  loadMoreTransactions a s =
    (setIsLoadingMore true s,
     Some {| request := GraphQLQuery a pageSize ((currentPage s + 1) * pageSize);
             captured := allTransactions s |}).
Proof.
  intros U L H. unfold loadMoreTransactions, loadMoreWithGraphQL_start.
  now rewrite U, L, H.
Qed.

Lemma loadMoreTransactions_rest (a : string) (s : FeedState) :
  useRestAPI s = true -> isLoadingMore s = false -> hasMore s = true ->
  loadMoreTransactions a s =
    (setIsLoadingMore true s,
     Some {| request := RestQuery a (Rest.params (restStartVersion s));
             captured := allTransactions s |}).
Proof.
  intros U L H. unfold loadMoreTransactions, loadMoreWithRest_start.
  now rewrite U, L, H.
Qed.

(** Below 2^53 an integer is a double. *)
Lemma toDouble_exact (z : Z) : (Z.abs z < 2 ^ 53)%Z -> Js.toDouble z = z.
Proof.
  intros H. unfold Js.toDouble. apply Z.ltb_lt in H. now rewrite H.
Qed.

Lemma forallb_safeVersion (vs : list Z) :
  forallb (fun v => (0 <=? v)%Z && (v <? 2 ^ 53)%Z) vs = true ->
  Forall Js.safeVersion vs.
Proof.
  intros H. apply Forall_forall. intros v Hv.
  rewrite forallb_forall in H. specialize (H v Hv).
  apply andb_true_iff in H. destruct H as [H1 H2].
  apply Z.leb_le in H1. apply Z.ltb_lt in H2. split; assumption.
Qed.

Lemma spread_fits {JS : Js.Engine} {A : Type} (f : list Z -> A) (xs : list Z) :
  (N.of_nat (length xs) <= Js.argumentLimit)%N ->
  Js.spread f xs = Js.Returned (f xs).
Proof.
  intros H. unfold Js.spread. apply N.leb_le in H. now rewrite H.
Qed.


(** [Math.min(...l.map(x => parseInt(f x))) - 1] on a list that fits the
    engine and holds safe versions: one below the least of them. *)
Lemma oldest_minus_one {JS : Js.Engine} {A : Type} (f : A -> Z) (l : list A) :
  l <> [] ->
  (N.of_nat (length l) <= Js.argumentLimit)%N ->
  Forall Js.safeVersion (map f l) ->
  exists m,
    isMinimum m (map f l) /\
    Js.spread Js.Math_min (map (fun x => Js.parseInt (f x)) l)
      = Js.Returned (Js.Num m) /\
    Js.minus_one (Js.Num m) = Js.Num (m - 1).
Proof.
  intros Hne Hfit Hsafe.
  assert (P : map (fun x => Js.parseInt (f x)) l = map f l).
  { apply map_ext_in. intros x Hx. unfold Js.parseInt.
    rewrite Forall_forall in Hsafe.
    destruct (Hsafe (f x) (in_map f l x Hx)) as [H0 H1].
    apply toDouble_exact. lia. }
  destruct (Math_min_least (map f l)) as (m & Hm & Hmin).
  { destruct l; [congruence|discriminate]. }
  exists m. split; [exact Hmin|]. split.
  - rewrite P, spread_fits by (now rewrite length_map). now rewrite Hm.
  - cbn [Js.minus_one]. f_equal. apply toDouble_exact.
    rewrite Forall_forall in Hsafe.
    destruct (Hsafe m (proj1 Hmin)) as [H0 H1]. lia.
Qed.

(** The switch on an empty indexed page: all but the cursor. *)
Lemma empty_page_switches {JS : Js.Engine} (closure : list Transaction)
    (data : option (list Transaction)) (s : FeedState) :
  match data with Some txs => txs | None => [] end = [] ->
  exists cursor,
    loadMoreWithGraphQL_settle closure (Js.Returned data) s =
      {| allTransactions := allTransactions s;
         currentPage := currentPage s;
         isLoadingMore := false;
         hasMore := true;
         useRestAPI := true;
         restStartVersion := cursor |} /\
    (closure = [] -> cursor = restStartVersion s).
Proof.
  intros Hp. unfold loadMoreWithGraphQL_settle. rewrite Hp.
  cbn [length Nat.ltb Nat.leb].
  destruct closure as [|t ts]; cbn [length Nat.ltb Nat.leb].
  - eexists. split; [reflexivity|reflexivity].
  - destruct (Js.spread Js.Math_min _);
      (eexists; split; [reflexivity|discriminate]).
Qed.

(** The cursor it sets: one below the least captured version, when the
    captured list fits the engine and its versions are safe. *)
Lemma empty_page_cursor {JS : Js.Engine} (closure : list Transaction)
    (data : option (list Transaction)) (s : FeedState) :
  match data with Some txs => txs | None => [] end = [] ->
  closure <> [] ->
  (N.of_nat (length closure) <= Js.argumentLimit)%N ->
  Forall Js.safeVersion (map transaction_version closure) ->
  exists m,
    isMinimum m (map transaction_version closure) /\
    loadMoreWithGraphQL_settle closure (Js.Returned data) s =
      {| allTransactions := allTransactions s;
         currentPage := currentPage s;
         isLoadingMore := false;
         hasMore := true;
         useRestAPI := true;
         restStartVersion := Some (Js.Num (m - 1)) |}.
Proof.
  intros Hp Hc Hfit Hsafe.
  destruct (oldest_minus_one transaction_version closure Hc Hfit Hsafe)
    as (m & Hmin & Hspread & Hminus).
  exists m. split; [exact Hmin|].
  unfold loadMoreWithGraphQL_settle. rewrite Hp. cbn [length Nat.ltb Nat.leb].
  destruct closure as [|t ts]; [congruence|].
  cbn [length Nat.ltb Nat.leb]. rewrite Hspread, Hminus. reflexivity.
Qed.

Lemma loadMoreIndexed_unfold {JS : Js.Engine} (a : string) (s : FeedState) (p : list Transaction) :
  useRestAPI s = false -> isLoadingMore s = false -> hasMore s = true ->
  loadMoreIndexed a s p =
    loadMoreWithGraphQL_settle (allTransactions s) (Js.Returned (Some p))
      (setIsLoadingMore true s).
Proof.
  intros U L H. unfold loadMoreIndexed.
  now rewrite (loadMoreTransactions_indexed a s U L H).
Qed.

Lemma step_blocked {JS : Js.Engine} (w : World) :
  isLoadingMore (feed w) = true \/ hasMore (feed w) = false ->
  step w LoadMoreClicked = w.
Proof.
  intros G. cbn [step]. rewrite loadMoreTransactions_blocked by exact G.
  now destruct w.
Qed.

(** ** C1: what follows an indexed page *)

(** C1, as stated, fails: an indexed page of 37 records (fewer than
    [pageSize]) clears [hasMore] and leaves [useRestAPI] false, so the next
    "load more" call returns at its guard and issues no request at all; the
    only request ever sent is the indexed one at offset 100. *)
Lemma C1_short_page_ends_feed :
  let a := "0xa11ce" in
  let page := samplePage 900 37 in
  let w := run [QueryCompleted (Some (samplePage 1000 100));
                LoadMoreClicked;
                Settled 0 (GraphQLData (Some page))] (initialWorld a) in
  length page < pageSize /\
  length (allTransactions (feed w)) = 137 /\
  useRestAPI (feed w) = false /\
  hasMore (feed w) = false /\
  loadMoreTransactions a (feed w) = (feed w, None) /\
  sent (step w LoadMoreClicked) = [GraphQLQuery a 100 100].
Proof.
  cbv zeta. split; [vm_compute; lia|].
  repeat split; vm_compute; reflexivity.
Qed.

Lemma step_settled_indexed {JS : Js.Engine} (w : World) (i : nat) (c : Call)
    (r : Js.Try (option (list Transaction))) :
  nth_error (pending w) i = Some c ->
  isRestQuery (request c) = false ->
  step w (Settled i match r with
                    | Js.Returned d => GraphQLData d
                    | Js.Thrown => GraphQLError
                    end) =
    {| address := address w;
       feed := loadMoreWithGraphQL_settle (captured c) r (feed w);
       pending := removeNth i (pending w);
       sent := sent w |}.
Proof.
  intros N Q. cbn [step]. rewrite N. unfold settle.
  destruct (request c); [|discriminate]. now destruct r.
Qed.

(** With Rest selected and nothing pending, only a new address or a
    click on "load more" changes the component. *)
Lemma rest_selected_idle {JS : Js.Engine} (w : World) (evs : list Event) :
  useRestAPI (feed w) = true ->
  pending w = [] ->
  forallb (keepsAddress (address w)) evs = true ->
  forallb (fun e => negb (isLoadMoreClicked e)) evs = true ->
  run evs w = w.
Proof.
  intros U P. induction evs as [|e evs IH]; intros K Q; [reflexivity|].
  cbn in K, Q. apply andb_true_iff in K. apply andb_true_iff in Q.
  destruct K as [Ke Kevs], Q as [Qe Qevs].
  assert (S : step w e = w).
  { destruct e as [a | data | | i r | ]; cbn [step].
    - cbn in Ke. now rewrite Ke.
    - now rewrite U.
    - discriminate.
    - rewrite P. now destruct i.
    - destruct w as [a [all cp l h u cur] pend snt]. cbn in U. now subst u. }
  cbn [run fold_left]. rewrite S. now apply IH.
Qed.

(** C1, amended: when an indexed "load more" fetch returns an empty page,
    the backend switches, and the next "load more" call made while the
    address stays the same queries Rest with [start] one below the least
    version among the records that were held when the answered call was
    made (each call captures the list it sees); this for versions below
    2^53 and a captured list within the engine's argument limit.  When
    that call captured no record, the cursor is left as it was.  A
    non-empty page shorter than [pageSize] is appended and ends the feed
    instead: [hasMore] is cleared, the backend selection is untouched and
    a "load more" call in that state sends nothing. *)
Theorem C1_indexed_page_outcome {JS : Js.Engine} (w : World) (c : Call)
    (page : list Transaction) (between : list Event) :
  pending w = [c] ->
  isRestQuery (request c) = false ->
  forallb (keepsAddress (address w)) between = true ->
  forallb (fun e => negb (isLoadMoreClicked e)) between = true ->
  let w1 := step w (Settled 0 (GraphQLData (Some page))) in
  (page = [] -> captured c <> [] ->
   (N.of_nat (length (captured c)) <= Js.argumentLimit)%N ->
   Forall Js.safeVersion (map transaction_version (captured c)) ->
     exists m,
       isMinimum m (map transaction_version (captured c)) /\
       useRestAPI (feed w1) = true /\
       restStartVersion (feed w1) = Some (Js.Num (m - 1)) /\
       sent (step (run between w1) LoadMoreClicked) =
         sent w ++ [RestQuery (address w)
                      (Rest.params (Some (Js.Num (m - 1))))]) /\
  (page = [] -> captured c = [] ->
     useRestAPI (feed w1) = true /\
     restStartVersion (feed w1) = restStartVersion (feed w) /\
     sent (step (run between w1) LoadMoreClicked) =
       sent w ++ [RestQuery (address w)
                    (Rest.params (restStartVersion (feed w)))]) /\
  (page <> [] -> length page < pageSize ->
     useRestAPI (feed w1) = useRestAPI (feed w) /\
     hasMore (feed w1) = false /\
     allTransactions (feed w1) = allTransactions (feed w) ++ page /\
     step w1 LoadMoreClicked = w1) /\
  (forall w0,
     useRestAPI (feed w0) = false ->
     isLoadingMore (feed w0) = false ->
     hasMore (feed w0) = true ->
     exists c0,
       pending (step w0 LoadMoreClicked) = pending w0 ++ [c0] /\
       captured c0 = allTransactions (feed w0) /\
       request c0 = GraphQLQuery (address w0) pageSize
                      ((currentPage (feed w0) + 1) * pageSize)).
Proof.
  intros P Q K B w1.
  assert (N : nth_error (pending w) 0 = Some c) by now rewrite P.
  assert (E1 : w1 = {| address := address w;
                       feed := loadMoreWithGraphQL_settle (captured c)
                                 (Js.Returned (Some page)) (feed w);
                       pending := [];
                       sent := sent w |}).
  { subst w1.
    rewrite (step_settled_indexed w 0 c (Js.Returned (Some page)) N Q).
    now rewrite P. }
  assert (Next : forall cursor,
             loadMoreWithGraphQL_settle (captured c)
               (Js.Returned (Some page)) (feed w) =
               {| allTransactions := allTransactions (feed w);
                  currentPage := currentPage (feed w);
                  isLoadingMore := false;
                  hasMore := true;
                  useRestAPI := true;
                  restStartVersion := cursor |} ->
             useRestAPI (feed w1) = true /\
             restStartVersion (feed w1) = cursor /\
             sent (step (run between w1) LoadMoreClicked) =
               sent w ++ [RestQuery (address w) (Rest.params cursor)]).
  { intros cursor Hs. rewrite E1, Hs.
    rewrite rest_selected_idle by (try reflexivity; assumption).
    cbn [feed step address sent useRestAPI restStartVersion].
    rewrite loadMoreTransactions_rest by reflexivity.
    cbn [sent request restStartVersion]. auto. }
  split; [|split; [|split]].
  - intros -> Hheld Hfit Hsafe.
    destruct (empty_page_cursor (captured c) (Some []) (feed w)
                eq_refl Hheld Hfit Hsafe) as (m & Hmin & Hs).
    exists m. split; [exact Hmin|]. now apply Next.
  - intros -> Hheld.
    destruct (empty_page_switches (captured c) (Some []) (feed w) eq_refl)
      as (cursor & Hs & Hcur).
    rewrite (Hcur Hheld) in Hs. now apply Next.
  - intros Hne Hlen. rewrite E1. cbn [feed].
    unfold loadMoreWithGraphQL_settle.
    destruct page as [|t ts]; [congruence|].
    cbn [length Nat.ltb Nat.leb] in *.
    assert (L : (S (length ts) =? pageSize) = false)
      by (apply Nat.eqb_neq; lia).
    rewrite L. cbn [useRestAPI hasMore allTransactions setIsLoadingMore
                    setHasMore setCurrentPage setAllTransactions].
    repeat split. apply step_blocked. now right.
  - intros w0 U L H. cbn [step].
    rewrite (loadMoreTransactions_indexed (address w0) (feed w0) U L H).
    eexists. cbn [pending]. split; [reflexivity|]. split; reflexivity.
Qed.

Lemma C1_indexed_page_outcome_witness :
  let w := run [QueryCompleted (Some (samplePage 1000 100)); LoadMoreClicked;
                AddressChanged "0xb0b";
                QueryCompleted (Some (samplePage 500 100))]
             (initialWorld "0xa11ce") in
  let c := {| request := GraphQLQuery "0xa11ce" 100 100;
              captured := samplePage 1000 100 |} in
  let between := [QueryCompleted None; TryRestClicked] in
  let w1 := step w (Settled 0 (GraphQLData (Some []))) in
  exists m,
    isMinimum m (map transaction_version (captured c)) /\
    useRestAPI (feed w1) = true /\
    restStartVersion (feed w1) = Some (Js.Num (m - 1)) /\
    sent (step (run between w1) LoadMoreClicked) =
      sent w ++ [RestQuery (address w) (Rest.params (Some (Js.Num (m - 1))))].
Proof.
  cbv zeta.
  refine (proj1 (C1_indexed_page_outcome
                   (run [QueryCompleted (Some (samplePage 1000 100));
                         LoadMoreClicked; AddressChanged "0xb0b";
                         QueryCompleted (Some (samplePage 500 100))]
                      (initialWorld "0xa11ce"))
                   {| request := GraphQLQuery "0xa11ce" 100 100;
                      captured := samplePage 1000 100 |}
                   [] [QueryCompleted None; TryRestClicked]
                   eq_refl eq_refl eq_refl eq_refl) eq_refl _ _ _).
  - vm_compute. discriminate.
  - vm_compute. discriminate.
  - apply forallb_safeVersion. vm_compute. reflexivity.
Defined.

(** ** C2: the in-flight guard *)

Lemma removeNth_length {A : Type} (i : nat) (l : list A) (x : A) :
  nth_error l i = Some x -> length (removeNth i l) = length l - 1.
Proof.
  intros H. unfold removeNth.
  assert (Hi : i < length l) by (apply nth_error_Some; congruence).
  rewrite length_app, length_firstn, length_skipn. lia.
Qed.

Lemma settle_clears_loading {JS : Js.Engine} (c : Call) (r : Reply) (s : FeedState) :
  answers (request c) r = true -> isLoadingMore (settle c r s) = false.
Proof.
  unfold settle. destruct (request c), r; cbn; try discriminate; reflexivity.
Qed.

Lemma step_inflightInvariant {JS : Js.Engine} (w : World) (e : Event) :
  inflightInvariant w -> inflightInvariant (step w e).
Proof.
  unfold inflightInvariant. intros I.
  destruct e as [a | data | | i r | ]; cbn [step].
  - destruct (String.eqb a (address w)); [exact I|exact I].
  - destruct (useRestAPI (feed w)); [exact I|].
    cbn [feed pending]. destruct data; exact I.
  - destruct (isLoadingMore (feed w)) eqn:L.
    + rewrite loadMoreTransactions_blocked by now left.
      cbn [feed pending]. now rewrite L.
    + destruct (hasMore (feed w)) eqn:H.
      * destruct (useRestAPI (feed w)) eqn:U.
        -- rewrite loadMoreTransactions_rest by assumption.
           cbn. rewrite length_app, I. reflexivity.
        -- rewrite loadMoreTransactions_indexed by assumption.
           cbn. rewrite length_app, I. reflexivity.
      * rewrite loadMoreTransactions_blocked by now right.
        cbn [feed pending]. now rewrite L.
  - destruct (nth_error (pending w) i) as [c|] eqn:N; [|exact I].
    destruct (answers (request c) r) eqn:A; [|exact I].
    cbn [feed pending].
    rewrite (settle_clears_loading c r _ A), (removeNth_length i _ c N).
    assert (0 < length (pending w)).
    { assert (i < length (pending w)) by (apply nth_error_Some; congruence). lia. }
    destruct (isLoadingMore (feed w)); lia.
  - exact I.
Qed.

Lemma run_inflightInvariant {JS : Js.Engine} (evs : list Event) (w : World) :
  inflightInvariant w -> inflightInvariant (run evs w).
Proof.
  revert w. induction evs as [|e evs IH]; intros w I; [exact I|].
  cbn. apply IH, step_inflightInvariant, I.
Qed.

(** C2: in every state the component can reach, a "load more" call made
    while a fetch is pending, or while [hasMore] is false, changes nothing
    and issues no request; and two calls in a row with nothing pending
    issue exactly one request, which is then the only pending one. *)
Theorem C2_inflight_guard {JS : Js.Engine} (a0 : string) (evs : list Event) :
  let w := run evs (initialWorld a0) in
  (pending w <> [] \/ hasMore (feed w) = false ->
     step w LoadMoreClicked = w) /\
  (pending w = [] -> hasMore (feed w) = true ->
     exists c,
       let w2 := run [LoadMoreClicked; LoadMoreClicked] w in
       sent w2 = sent w ++ [request c] /\
       pending w2 = [c] /\
       w2 = step w LoadMoreClicked).
Proof.
  intros w.
  assert (I : inflightInvariant w)
    by (apply run_inflightInvariant; reflexivity).
  unfold inflightInvariant in I. split.
  - intros [P | H]; apply step_blocked; [left | now right].
    destruct (isLoadingMore (feed w)); [reflexivity|].
    destruct (pending w); [congruence|discriminate].
  - intros P H. rewrite P in I.
    destruct (isLoadingMore (feed w)) eqn:L; [discriminate|].
    assert (exists c, step w LoadMoreClicked =
              {| address := address w; feed := setIsLoadingMore true (feed w);
                 pending := pending w ++ [c]; sent := sent w ++ [request c] |})
      as [c Hc].
    { cbn [step]. destruct (useRestAPI (feed w)) eqn:U.
      - rewrite loadMoreTransactions_rest by assumption. eauto.
      - rewrite loadMoreTransactions_indexed by assumption. eauto. }
    exists c. cbn [run fold_left]. rewrite Hc.
    rewrite step_blocked by (left; reflexivity).
    cbn [sent pending]. now rewrite P.
Qed.

Lemma C2_inflight_guard_witness :
  let w := run [QueryCompleted (Some (samplePage 1000 100))]
             (initialWorld "0xa11ce") in
  exists c,
    let w2 := run [LoadMoreClicked; LoadMoreClicked] w in
    sent w2 = sent w ++ [request c] /\
    pending w2 = [c] /\
    w2 = step w LoadMoreClicked.
Proof.
  exact (proj2 (C2_inflight_guard "0xa11ce"
                 [QueryCompleted (Some (samplePage 1000 100))])
               eq_refl eq_refl).
Defined.

(** ** C3: the cursor at the switch *)

(** The [catch] of [loadMoreWithGraphQL] switches the backend and leaves
    the cursor as it finds it, whatever is held. *)
Lemma failed_fetch_cursor_unchanged {JS : Js.Engine} (closure : list Transaction) (s : FeedState) :
  let s' := loadMoreWithGraphQL_settle closure Js.Thrown s in
  useRestAPI s' = true /\ restStartVersion s' = restStartVersion s.
Proof. split; reflexivity. Qed.

(** C3 at a failing input: with the 100 records of versions 1000..901
    held, a rejected indexed fetch switches to Rest with no cursor, and the
    next "load more" call asks the node for its newest transactions (no
    [start]); an empty page in the same state sets the cursor to 900. *)
Lemma C3_failed_fetch_omits_cursor :
  let a := "0xa11ce" in
  let w := run [QueryCompleted (Some (samplePage 1000 100)); LoadMoreClicked]
             (initialWorld a) in
  let failed := step w (Settled 0 GraphQLError) in
  let emptied := step w (Settled 0 (GraphQLData (Some []))) in
  isMinimum 901 (map transaction_version (allTransactions (feed failed))) /\
  useRestAPI (feed failed) = true /\
  restStartVersion (feed failed) = None /\
  sent (step failed LoadMoreClicked) =
    [GraphQLQuery a 100 100; RestQuery a (Rest.params None)] /\
  restStartVersion (feed emptied) = Some (Js.Num 900) /\
  sent (step emptied LoadMoreClicked) =
    [GraphQLQuery a 100 100; RestQuery a (Rest.params (Some (Js.Num 900)))].
Proof.
  cbv zeta. split; [|repeat split; vm_compute; reflexivity].
  split.
  - vm_compute. do 99 right. now left.
  - intros v Hv. apply in_map_iff in Hv. destruct Hv as (t & <- & Ht).
    vm_compute in Ht.
    repeat (destruct Ht as [<- | Ht]; [vm_compute; discriminate|]).
    destruct Ht.
Qed.

(** ** C4: indexed pages are appended *)




(** ** C5 and C9: the switch to Rest is one-way *)

Lemma settle_keeps_rest {JS : Js.Engine} (c : Call) (r : Reply) (s : FeedState) :
  useRestAPI s = true -> useRestAPI (settle c r s) = true.
Proof.
  intros U. unfold settle.
  destruct (request c) as [? ? ?|? ?], r as [d| |net]; try exact U.
  - unfold loadMoreWithGraphQL_settle.
    destruct (0 <? length match d with Some txs => txs | None => [] end);
      [exact U|].
    destruct (0 <? length (captured c)); [|reflexivity].
    now destruct (Js.spread Js.Math_min _).
  - reflexivity.
  - unfold loadMoreWithRest_settle.
    destruct (Rest.afterFetch net) as [txs|]; [|exact U].
    destruct (0 <? length txs); [|exact U].
    destruct (Js.spread Js.Math_min _); exact U.
Qed.

(** While Rest is selected and the address stays, an event keeps Rest
    selected, and whatever it sends is a Rest query. *)
(** Closes a goal of the shape [... /\ exists new, sent w = sent w ++ new
    /\ ...] for an event that sends nothing. *)
Ltac nothing_sent U :=
  repeat split; try exact U; exists []; now rewrite app_nil_r.

Lemma step_rest_sticky {JS : Js.Engine} (w : World) (e : Event) :
  useRestAPI (feed w) = true ->
  keepsAddress (address w) e = true ->
  useRestAPI (feed (step w e)) = true /\
  address (step w e) = address w /\
  exists new, sent (step w e) = sent w ++ new /\ forallb isRestQuery new = true.
Proof.
  intros U K.
  destruct e as [a | data | | i r | ]; cbn [step].
  - cbn in K. rewrite K. nothing_sent U.
  - rewrite U. nothing_sent U.
  - unfold loadMoreTransactions. rewrite U. unfold loadMoreWithRest_start.
    destruct (isLoadingMore (feed w) || negb (hasMore (feed w))); cbn.
    + nothing_sent U.
    + repeat split; [exact U|]. eexists. split; reflexivity.
  - destruct (nth_error (pending w) i) as [c|]; [|nothing_sent U].
    destruct (answers (request c) r); cbn; [|nothing_sent U].
    pose proof (settle_keeps_rest c r _ U) as U'. nothing_sent U'.
  - cbn. nothing_sent U.
Qed.

Lemma run_rest_sticky {JS : Js.Engine} (evs : list Event) (w : World) :
  useRestAPI (feed w) = true ->
  forallb (keepsAddress (address w)) evs = true ->
  useRestAPI (feed (run evs w)) = true /\
  address (run evs w) = address w /\
  exists new, sent (run evs w) = sent w ++ new /\ forallb isRestQuery new = true.
Proof.
  revert w. induction evs as [|e evs IH]; intros w U K.
  - repeat split; [exact U|]. exists []. now rewrite app_nil_r.
  - cbn in K. apply andb_true_iff in K. destruct K as [Ke Kevs].
    destruct (step_rest_sticky w e U Ke) as (U1 & A1 & new1 & S1 & R1).
    rewrite <- A1 in Kevs.
    destruct (IH (step w e) U1 Kevs) as (U2 & A2 & new2 & S2 & R2).
    cbn [run fold_left]. fold (run evs (step w e)).
    repeat split; [exact U2|congruence|].
    exists (new1 ++ new2). rewrite S2, S1, <- app_assoc. split; [reflexivity|].
    rewrite forallb_app, R1, R2. reflexivity.
Qed.

(** C5, as stated, fails: a failed fetch is not handled as an exhausted
    backend is.  With versions 1000..901 held and a "load more" pending, a
    failure switches to Rest, while a page of 37 records (shorter than
    [pageSize]) leaves the indexed backend selected and ends the feed, so
    that the next call sends nothing; and the state after the failure is
    not the state after an empty page either. *)
Lemma C5_failure_differs_from_exhaustion :
  let a := "0xa11ce" in
  let w := run [QueryCompleted (Some (samplePage 1000 100)); LoadMoreClicked]
             (initialWorld a) in
  let failed := step w (Settled 0 GraphQLError) in
  let short := step w (Settled 0 (GraphQLData (Some (samplePage 900 37)))) in
  let emptied := step w (Settled 0 (GraphQLData (Some []))) in
  length (samplePage 900 37) < pageSize /\
  useRestAPI (feed failed) = true /\
  useRestAPI (feed short) = false /\
  hasMore (feed short) = false /\
  sent (step failed LoadMoreClicked) =
    [GraphQLQuery a 100 100; RestQuery a (Rest.params None)] /\
  sent (step short LoadMoreClicked) = [GraphQLQuery a 100 100] /\
  sent (step emptied LoadMoreClicked) =
    [GraphQLQuery a 100 100; RestQuery a (Rest.params (Some (Js.Num 900)))] /\
  feed failed <> feed emptied.
Proof.
  cbv zeta. split; [vm_compute; lia|].
  repeat split; try (vm_compute; reflexivity).
  vm_compute. discriminate.
Qed.

(** C5, amended: when a pending indexed fetch fails, the state becomes the
    one an empty page would give in every field but the cursor: Rest is
    selected, [hasMore] is set and the loading flag cleared.  The next
    "load more" call sends a Rest query, and as long as the address stays
    the same every later request is a Rest query. *)
Theorem C5_failed_indexed_fetch_switches {JS : Js.Engine} (w : World)
    (i : nat) (c : Call) (evs : list Event) :
  nth_error (pending w) i = Some c ->
  isRestQuery (request c) = false ->
  forallb (keepsAddress (address w)) evs = true ->
  let w1 := step w (Settled i GraphQLError) in
  sameButCursor (feed w1) (settle c (GraphQLData (Some [])) (feed w)) /\
  useRestAPI (feed w1) = true /\
  hasMore (feed w1) = true /\
  isLoadingMore (feed w1) = false /\
  (exists ps,
     sent (step w1 LoadMoreClicked) = sent w1 ++ [RestQuery (address w) ps]) /\
  (exists new,
     sent (run evs w1) = sent w1 ++ new /\ forallb isRestQuery new = true).
Proof.
  intros N Q K w1.
  assert (E : w1 = {| address := address w;
                      feed := loadMoreWithGraphQL_settle (captured c) Js.Thrown (feed w);
                      pending := removeNth i (pending w);
                      sent := sent w |}).
  { subst w1. cbn [step]. rewrite N. unfold settle.
    destruct (request c); [reflexivity|discriminate]. }
  assert (U : useRestAPI (feed w1) = true) by now rewrite E.
  split; [|split; [exact U|split; [now rewrite E|split; [now rewrite E|split]]]].
  - rewrite E. cbn [feed]. unfold settle.
    destruct (request c); [|discriminate].
    destruct (empty_page_switches (captured c) (Some []) (feed w) eq_refl)
      as (cursor & -> & _).
    repeat split.
  - rewrite E. cbn [step address feed].
    rewrite loadMoreTransactions_rest by reflexivity.
    cbn. eauto.
  - apply run_rest_sticky; [exact U|]. now rewrite E.
Qed.

Lemma C5_failed_indexed_fetch_switches_witness :
  let w := run [QueryCompleted (Some (samplePage 1000 100)); LoadMoreClicked]
             (initialWorld "0xa11ce") in
  let w1 := step w (Settled 0 GraphQLError) in
  exists new,
    sent (run [LoadMoreClicked; Settled 0 (RestReply Rest.FetchRejected);
               QueryCompleted None; TryRestClicked; LoadMoreClicked] w1)
      = sent w1 ++ new /\
    forallb isRestQuery new = true.
Proof.
  cbv zeta.
  refine (proj2 (proj2 (proj2 (proj2 (proj2
    (C5_failed_indexed_fetch_switches
       (run [QueryCompleted (Some (samplePage 1000 100)); LoadMoreClicked]
          (initialWorld "0xa11ce"))
       0
       {| request := GraphQLQuery "0xa11ce" 100 100;
          captured := samplePage 1000 100 |}
       [LoadMoreClicked; Settled 0 (RestReply Rest.FetchRejected);
        QueryCompleted None; TryRestClicked; LoadMoreClicked]
       _ _ _)))))); reflexivity.
Defined.

(** C9: once Rest is selected, no "load more" call, no settling fetch, no
    query completion and no click selects the indexed backend again while
    the address stays the same; a new address does. *)
Theorem C9_backend_switch_one_way {JS : Js.Engine} (w : World) (evs : list Event) (a : string) :
  useRestAPI (feed w) = true ->
  forallb (keepsAddress (address w)) evs = true ->
  a <> address (run evs w) ->
  useRestAPI (feed (run evs w)) = true /\
  useRestAPI (feed (step (run evs w) (AddressChanged a))) = false.
Proof.
  intros U K Ha.
  destruct (run_rest_sticky evs w U K) as (U' & _ & _).
  split; [exact U'|]. cbn [step].
  apply String.eqb_neq in Ha. now rewrite Ha.
Qed.

Lemma C9_backend_switch_one_way_witness :
  let w := run [QueryCompleted (Some (samplePage 1000 100)); LoadMoreClicked;
                Settled 0 (GraphQLData (Some []))] (initialWorld "0xa11ce") in
  let evs := [LoadMoreClicked;
              Settled 0 (RestReply (Rest.FetchResolved
                {| Rest.status := 200;
                   Rest.body := Rest.BodyArray
                     [ {| Rest.version := 900; Rest.type := "user_transaction";
                          Rest.sender := Some "0xb0b" |} ] |}));
              LoadMoreClicked; QueryCompleted (Some []); TryRestClicked] in
  useRestAPI (feed (run evs w)) = true /\
  useRestAPI (feed (step (run evs w) (AddressChanged "0xb0b"))) = false.
Proof.
  cbv zeta.
  refine (C9_backend_switch_one_way _ _ "0xb0b" _ _ _);
    [reflexivity | reflexivity | vm_compute; discriminate].
Defined.

(** ** C10 and C6: the Rest fetcher and exhaustion *)

Lemma failedFetch_empty (net : Rest.FetchResult) :
  failedFetch net -> Rest.afterFetch net = Js.Returned [].
Proof.
  intros [ | r Hr | st | st ]; unfold Rest.afterFetch; cbn.
  - reflexivity.
  - now rewrite Hr.
  - now destruct (negb _).
  - now destruct (negb _).
Qed.

Lemma afterFetch_returns (net : Rest.FetchResult) :
  exists txs, Rest.afterFetch net = Js.Returned txs.
Proof.
  unfold Rest.afterFetch.
  destruct (Rest.try_block net); eauto.
Qed.

(** C10: the Rest page fetcher never throws: for every address and
    cursor, and whatever the network does, it returns an array.  A
    rejected fetch, a status outside 200-299, a body that does not parse
    and a body that is not an array all give the empty array, which is
    also what an empty page gives. *)
Theorem C10_rest_fetcher_total (fetch : string -> Rest.Params -> Rest.FetchResult)
    (address : string) (start : option Js.Number) :
  (exists txs,
     Rest.getAccountTransactionsRest fetch address start = Js.Returned txs) /\
  (failedFetch (fetch (Rest.url address) (Rest.params start)) ->
     Rest.getAccountTransactionsRest fetch address start = Js.Returned [] /\
     Rest.getAccountTransactionsRest fetch address start =
       Rest.getAccountTransactionsRest (fun _ _ => emptyPage) address start).
Proof.
  unfold Rest.getAccountTransactionsRest. split.
  - apply afterFetch_returns.
  - intros F. rewrite (failedFetch_empty _ F). split; reflexivity.
Qed.

Lemma C10_rest_fetcher_total_witness :
  let fetch := fun (_ : string) (_ : Rest.Params) =>
    Rest.FetchResolved {| Rest.status := 503; Rest.body := Rest.BodyOther |} in
  Rest.getAccountTransactionsRest fetch "0xa11ce" (Some (Js.Num 900))
    = Js.Returned [] /\
  Rest.getAccountTransactionsRest fetch "0xa11ce" (Some (Js.Num 900))
    = Rest.getAccountTransactionsRest (fun _ _ => emptyPage)
        "0xa11ce" (Some (Js.Num 900)).
Proof.
  exact (proj2 (C10_rest_fetcher_total
                  (fun _ _ => Rest.FetchResolved
                     {| Rest.status := 503; Rest.body := Rest.BodyOther |})
                  "0xa11ce" (Some (Js.Num 900)))
               (failed_status
                  {| Rest.status := 503; Rest.body := Rest.BodyOther |}
                  eq_refl)).
Defined.

Lemma run_blocked {JS : Js.Engine} (n : nat) (w : World) :
  hasMore (feed w) = false -> run (repeat LoadMoreClicked n) w = w.
Proof.
  intros H. induction n as [|n IH]; [reflexivity|].
  cbn [repeat run fold_left]. rewrite step_blocked by now right.
  exact IH.
Qed.

(** C6: when a pending Rest fetch settles with fewer than 1000 records,
    with none, or with a failure of the transport, [hasMore] becomes false
    (the feed is exhausted), and any number of "load more" calls after
    that change nothing: no record is added and no request is sent. *)
Theorem C6_rest_exhaustion {JS : Js.Engine} (w : World) (i : nat) (c : Call)
    (net : Rest.FetchResult) (n : nat) :
  nth_error (pending w) i = Some c ->
  isRestQuery (request c) = true ->
  (exists txs, Rest.afterFetch net = Js.Returned txs /\
               length txs < restThreshold) \/ failedFetch net ->
  let w1 := step w (Settled i (RestReply net)) in
  hasMore (feed w1) = false /\
  run (repeat LoadMoreClicked n) w1 = w1 /\
  allTransactions (feed (run (repeat LoadMoreClicked n) w1)) =
    allTransactions (feed w1) /\
  sent (run (repeat LoadMoreClicked n) w1) = sent w.
Proof.
  intros N Q Hnet w1.
  assert (Hshort : exists txs,
             Rest.afterFetch net = Js.Returned txs /\
             length txs < restThreshold).
  { destruct Hnet as [H | F]; [exact H|].
    exists []. split; [now apply failedFetch_empty|]. unfold restThreshold.
    cbn [length]. lia. }
  destruct Hshort as (txs & Htxs & Hlen).
  assert (E : w1 = {| address := address w;
                      feed := loadMoreWithRest_settle net (feed w);
                      pending := removeNth i (pending w);
                      sent := sent w |}).
  { subst w1. cbn [step]. rewrite N. unfold settle.
    destruct (request c); [discriminate|reflexivity]. }
  assert (H : hasMore (feed w1) = false).
  { rewrite E. cbn [feed]. unfold loadMoreWithRest_settle. rewrite Htxs.
    destruct (0 <? length txs); [|reflexivity].
    destruct (Js.spread Js.Math_min _); [|reflexivity].
    unfold setIsLoadingMore, setHasMore. cbn [hasMore].
    apply Nat.leb_gt. exact Hlen. }
  split; [exact H|].
  rewrite (run_blocked n w1 H).
  repeat split. now rewrite E.
Qed.

Lemma C6_rest_exhaustion_witness :
  let w := run [QueryCompleted (Some (samplePage 1000 100)); LoadMoreClicked;
                Settled 0 (GraphQLData (Some [])); LoadMoreClicked]
             (initialWorld "0xa11ce") in
  let w1 := step w (Settled 0 (RestReply Rest.FetchRejected)) in
  hasMore (feed w1) = false /\
  run (repeat LoadMoreClicked 3) w1 = w1 /\
  allTransactions (feed (run (repeat LoadMoreClicked 3) w1)) =
    allTransactions (feed w1) /\
  sent (run (repeat LoadMoreClicked 3) w1) = sent w.
Proof.
  cbv zeta.
  refine (C6_rest_exhaustion _ 0
            {| request := RestQuery "0xa11ce" (Rest.params (Some (Js.Num 900)));
               captured := samplePage 1000 100 |}
            Rest.FetchRejected 3 _ _ _).
  - reflexivity.
  - reflexivity.
  - right. constructor.
Defined.

(** ** C7: the reset on a new address *)

(** C7: when the address changes, the record list becomes empty, the page
    counter zero, the backend indexed, the Rest cursor absent and
    [hasMore] true again, whatever the state was. *)
Theorem C7_address_change_resets {JS : Js.Engine} (w : World) (a : string) :
  a <> address w ->
  let w' := step w (AddressChanged a) in
  address w' = a /\
  allTransactions (feed w') = [] /\
  currentPage (feed w') = 0 /\
  useRestAPI (feed w') = false /\
  restStartVersion (feed w') = None /\
  hasMore (feed w') = true.
Proof.
  intros Ha. cbn [step]. apply String.eqb_neq in Ha. rewrite Ha.
  repeat split.
Qed.

Lemma C7_address_change_resets_witness :
  let w := run [QueryCompleted (Some (samplePage 1000 100)); LoadMoreClicked;
                Settled 0 (GraphQLData (Some [])); LoadMoreClicked;
                Settled 0 (RestReply Rest.FetchRejected)]
             (initialWorld "0xa11ce") in
  let w' := step w (AddressChanged "0xb0b") in
  address w' = "0xb0b" /\
  allTransactions (feed w') = [] /\
  currentPage (feed w') = 0 /\
  useRestAPI (feed w') = false /\
  restStartVersion (feed w') = None /\
  hasMore (feed w') = true.
Proof.
  cbv zeta.
  refine (C7_address_change_resets _ "0xb0b" _).
  vm_compute. discriminate.
Defined.

(** ** C8: normalisation of Rest transactions *)

Lemma rest_settle_appends {JS : Js.Engine} (net : Rest.FetchResult)
    (s : FeedState) (txs : list Rest.Tx) :
  Rest.afterFetch net = Js.Returned txs ->
  allTransactions (loadMoreWithRest_settle net s) =
    allTransactions s ++ map formatTransaction txs.
Proof.
  intros Htxs. unfold loadMoreWithRest_settle. rewrite Htxs.
  destruct txs as [|t ts]; cbn [length Nat.ltb Nat.leb].
  - cbn. now rewrite app_nil_r.
  - now destruct (Js.spread Js.Math_min _).
Qed.

(** C8, as stated, fails: a record made from a Rest transaction can be
    told from an indexed one.  Here both have version 900 and sender
    0xb0b; a consumer that reads [__typename] finds "UserTransaction" on
    the first and the indexer's row type on the second. *)
Lemma C8_origin_visible_in_typename :
  let fromRest :=
    formatTransaction {| Rest.version := 900; Rest.type := "user_transaction";
                         Rest.sender := Some "0xb0b" |} in
  let fromIndexer :=
    {| transaction_version := 900;
       __typename := indexedTypename;
       user_transaction := Some {| sender := Some "0xb0b" |} |} in
  let consumer := fun r => String.eqb (__typename r) indexedTypename in
  transaction_version fromRest = transaction_version fromIndexer /\
  user_transaction fromRest = user_transaction fromIndexer /\
  consumer fromRest = false /\
  consumer fromIndexer = true.
Proof. repeat split. Qed.

(** C8, amended: the records a Rest fetch adds are the node's
    transactions, each rebuilt with the three fields of an indexed record
    and the version as the node gives it.  A transaction is labelled
    UserTransaction exactly when its type is "user_transaction", and then
    carries the payload's sender under [user_transaction]; any other is
    labelled SystemTransaction and has no [user_transaction], hence no
    sender.  The origin stays visible: the label is never the row type the
    indexer reports. *)
Theorem C8_rest_normalisation {JS : Js.Engine} (net : Rest.FetchResult)
    (s : FeedState) (tx : Rest.Tx) :
  (exists txs,
     Rest.afterFetch net = Js.Returned txs /\
     allTransactions (loadMoreWithRest_settle net s) =
       allTransactions s ++ map formatTransaction txs) /\
  transaction_version (formatTransaction tx) = Rest.version tx /\
  (__typename (formatTransaction tx) = "UserTransaction" <->
     Rest.type tx = "user_transaction") /\
  (Rest.type tx = "user_transaction" ->
     user_transaction (formatTransaction tx) =
       Some {| sender := Rest.sender tx |}) /\
  (Rest.type tx <> "user_transaction" ->
     __typename (formatTransaction tx) = "SystemTransaction" /\
     user_transaction (formatTransaction tx) = None) /\
  __typename (formatTransaction tx) <> indexedTypename.
Proof.
  split; [|split; [reflexivity|]].
  - destruct (afterFetch_returns net) as (txs & Htxs).
    exists txs. split; [exact Htxs|]. now apply rest_settle_appends.
  - unfold formatTransaction. cbn [__typename user_transaction].
    destruct (String.eqb_spec (Rest.type tx) "user_transaction") as [T|T].
    + split; [split; auto|]. split; [auto|].
      split; [intros NE; contradiction|discriminate].
    + split; [split; [discriminate|intros; contradiction]|].
      split; [intros; contradiction|].
      split; [intros _; split; reflexivity|discriminate].
Qed.

Lemma C8_rest_normalisation_witness :
  let tx := {| Rest.version := 900; Rest.type := "user_transaction";
               Rest.sender := Some "0xb0b" |} in
  user_transaction (formatTransaction tx) = Some {| sender := Some "0xb0b" |}.
Proof.
  exact (proj1 (proj2 (proj2 (proj2
    (C8_rest_normalisation Rest.FetchRejected initialState
       {| Rest.version := 900; Rest.type := "user_transaction";
          Rest.sender := Some "0xb0b" |})))) eq_refl).
Defined.

(** * Further properties of the transaction feed *)

(** ** The indexed pass asks for contiguous pages *)

Lemma loadMoreIndexed_keeps_rest {JS : Js.Engine} (a : string) (s : FeedState)
    (p : list Transaction) :
  useRestAPI s = true -> useRestAPI (loadMoreIndexed a s p) = true.
Proof.
  intros U. unfold loadMoreIndexed, loadMoreTransactions.
  rewrite U. unfold loadMoreWithRest_start.
  destruct (isLoadingMore s || negb (hasMore s)); [exact U|].
  cbn. exact U.
Qed.

Lemma loadMoreIndexed_aligned {JS : Js.Engine} (a : string) (s : FeedState)
    (p : list Transaction) :
  alignedPages s -> alignedPages (loadMoreIndexed a s p).
Proof.
  intros A U'.
  destruct (useRestAPI s) eqn:U.
  { rewrite (loadMoreIndexed_keeps_rest a s p U) in U'. discriminate. }
  destruct (A U) as [L Hlen].
  destruct (hasMore s) eqn:H.
  2:{ unfold loadMoreIndexed in *.
      rewrite loadMoreTransactions_blocked in * by now right.
      split; [exact L|]. rewrite H. discriminate. }
  rewrite (loadMoreIndexed_unfold a s p U L H) in *.
  destruct p as [|t ts].
  - destruct (empty_page_switches (allTransactions s) (Some [])
                (setIsLoadingMore true s) eq_refl) as (cursor & Hs & _).
    rewrite Hs in U'. discriminate.
  - unfold loadMoreWithGraphQL_settle in *.
    cbn [length Nat.ltb Nat.leb]. split; [reflexivity|].
    unfold setIsLoadingMore, setHasMore, setCurrentPage, setAllTransactions.
    cbn [hasMore allTransactions currentPage].
    intros E. apply Nat.eqb_eq in E.
    rewrite length_app, (Hlen eq_refl). cbn [length]. lia.
Qed.

Lemma first_page_aligned (first : list Transaction) (s : FeedState) :
  isLoadingMore s = false ->
  alignedPages (onCompleted (Some first) (resetOnAddressChange s)).
Proof.
  intros L _. cbn. split; [exact L|].
  intros E. apply Nat.eqb_eq in E. rewrite E. reflexivity.
Qed.

Lemma loadMoreIndexed_fold_aligned {JS : Js.Engine} (a : string)
    (pages : list (list Transaction)) (s : FeedState) :
  alignedPages s -> alignedPages (fold_left (loadMoreIndexed a) pages s).
Proof.
  revert s. induction pages as [|p ps IH]; intros s A; [exact A|].
  cbn [fold_left]. apply IH, loadMoreIndexed_aligned, A.
Qed.

(** X1: take an address set while no "load more" request is pending, its
    first page, and then any "load more" calls, each answered by the
    indexed backend before the next event.  A further call that is let
    through asks for the page at the offset equal to the number of records
    held: the indexed requests neither skip nor repeat a position.  (A
    request left pending by the previous address breaks this.) *)
Theorem X1_indexed_offset_is_held_count {JS : Js.Engine} (a : string) (s : FeedState)
    (first : list Transaction) (pages : list (list Transaction)) :
  isLoadingMore s = false ->
  let s0 := onCompleted (Some first) (resetOnAddressChange s) in
  let s1 := fold_left (loadMoreIndexed a) pages s0 in
  useRestAPI s1 = false ->
  hasMore s1 = true ->
  loadMoreTransactions a s1 =
    (setIsLoadingMore true s1,
     Some {| request := GraphQLQuery a pageSize (length (allTransactions s1));
             captured := allTransactions s1 |}).
Proof.
  intros L s0 s1 U H.
  assert (A : alignedPages s1)
    by now apply loadMoreIndexed_fold_aligned, first_page_aligned.
  destruct (A U) as [L1 Hlen].
  rewrite (loadMoreTransactions_indexed a s1 U L1 H), (Hlen H).
  reflexivity.
Qed.

Lemma X1_indexed_offset_is_held_count_witness :
  let a := "0xa11ce" in
  let s0 := onCompleted (Some (samplePage 1000 100))
              (resetOnAddressChange initialState) in
  let s1 := fold_left (loadMoreIndexed a)
              [samplePage 900 100; samplePage 800 100] s0 in
  loadMoreTransactions a s1 =
    (setIsLoadingMore true s1,
     Some {| request := GraphQLQuery a pageSize (length (allTransactions s1));
             captured := allTransactions s1 |}).
Proof.
  exact (X1_indexed_offset_is_held_count "0xa11ce" initialState
           (samplePage 1000 100) [samplePage 900 100; samplePage 800 100]
           eq_refl eq_refl eq_refl).
Defined.

(** ** One fetch at a time *)

(** X2: whatever the events, at most one "load more" request is awaiting
    its answer, and [isLoadingMore] is set exactly while one is. *)
Theorem X2_at_most_one_pending {JS : Js.Engine} (a : string) (evs : list Event) :
  let w := run evs (initialWorld a) in
  length (pending w) <= 1 /\
  (isLoadingMore (feed w) = true <-> pending w <> []).
Proof.
  intros w.
  assert (I : inflightInvariant w)
    by (apply run_inflightInvariant; reflexivity).
  unfold inflightInvariant in I.
  destruct (isLoadingMore (feed w)), (pending w) as [|c cs];
    cbn [length] in *; try discriminate; split; try lia;
    split; congruence.
Qed.

(** ** A reply that outlives its address *)



(** ** The Rest pass moves its cursor below every record it adds *)



(** ** The buttons and the guard agree *)

Lemma render_clickable_inv (loading : bool) (error : option string)
    (a : string) (s : FeedState) :
  loadMoreClickable (render loading error a s) = true ->
  allTransactions s <> [] /\ hasMore s = true /\ isLoadingMore s = false.
Proof.
  unfold render, mainView.
  destruct (allTransactions s) as [|t ts] eqn:E; cbn [length Nat.ltb Nat.leb Nat.eqb].
  - destruct loading, error as [m|]; cbn; try discriminate;
      destruct (negb (useRestAPI s)); cbn; discriminate.
  - rewrite andb_false_r.
    assert (G : loadMoreClickable
                  (FeedView
                     {| loadedCount := S (length ts);
                        usingRest := useRestAPI s;
                        loadMoreButton :=
                          if hasMore s then Some (isLoadingMore s) else None;
                        allLoadedBanner :=
                          negb (hasMore s) && (pageSize <? S (length ts));
                        limitsWarning :=
                          hasMore s && (negb (useRestAPI s)
                                        && (1000 <=? S (length ts)));
                        rows := map (row a) (t :: ts) |}) = true ->
                [] <> t :: ts /\ hasMore s = true /\ isLoadingMore s = false).
    { cbn [loadMoreClickable loadMoreButton].
      destruct (hasMore s), (isLoadingMore s); cbn; try discriminate.
      intros _. repeat split. discriminate. }
    destruct error as [m|]; [destruct (negb (useRestAPI s))|].
    + cbn. discriminate.
    + intros C. destruct (G C) as (_ & ? & ?). repeat split; auto. discriminate.
    + intros C. destruct (G C) as (_ & ? & ?). repeat split; auto. discriminate.
Qed.

(** X5: a "load more" button that is on screen and enabled always does
    something: the click passes the guard and sends exactly one request,
    to the backend selected at that moment.  And in the feed view a button
    that is absent or disabled is one whose click would be dropped. *)
Theorem X5_button_matches_guard (loading : bool) (error : option string)
    (a : string) (s : FeedState) :
  (loadMoreClickable (render loading error a s) = true ->
   exists c,
     loadMoreTransactions a s = (setIsLoadingMore true s, Some c) /\
     isRestQuery (request c) = useRestAPI s /\
     captured c <> []) /\
  (forall p, render loading error a s = FeedView p ->
     loadMoreClickable (FeedView p) = false ->
     loadMoreTransactions a s = (s, None)).
Proof.
  split.
  - intros C. destruct (render_clickable_inv _ _ _ _ C) as (Hne & H & L).
    destruct (useRestAPI s) eqn:U.
    + rewrite loadMoreTransactions_rest by assumption.
      eexists. split; [reflexivity|]. split; [reflexivity|exact Hne].
    + rewrite loadMoreTransactions_indexed by assumption.
      eexists. split; [reflexivity|]. split; [reflexivity|exact Hne].
  - intros p R C. apply loadMoreTransactions_blocked.
    assert (M : mainView a s = FeedView p).
    { unfold render in R.
      destruct (loading && (length (allTransactions s) =? 0)); [discriminate|].
      destruct error as [m|]; [|exact R].
      destruct (negb (useRestAPI s)); [discriminate|exact R]. }
    unfold mainView in M.
    destruct (0 <? length (allTransactions s)); [|discriminate].
    injection M as <-. cbn in C.
    destruct (hasMore s); [|now right].
    left. now destruct (isLoadingMore s).
Qed.

Lemma X5_button_matches_guard_witness :
  let s := onCompleted (Some (samplePage 1000 100)) initialState in
  exists c,
    loadMoreTransactions "0xa11ce" s = (setIsLoadingMore true s, Some c) /\
    isRestQuery (request c) = useRestAPI s /\
    captured c <> [].
Proof.
  exact (proj1 (X5_button_matches_guard false None "0xa11ce"
                  (onCompleted (Some (samplePage 1000 100)) initialState))
               eq_refl).
Defined.

(** ** Rest with nothing held *)

Lemma render_nothing_held (loading : bool) (error : option string)
    (a : string) (s : FeedState) :
  allTransactions s = [] ->
  loadMoreClickable (render loading error a s) = false.
Proof.
  intros E.
  destruct (loadMoreClickable (render loading error a s)) eqn:C; [|reflexivity].
  destruct (render_clickable_inv _ _ _ _ C) as (Hne & _). congruence.
Qed.

Lemma render_error_view_indexed (loading : bool) (error : option string)
    (a : string) (s : FeedState) :
  tryRestClickable (render loading error a s) = true -> useRestAPI s = false.
Proof.
  unfold render, mainView.
  destruct (loading && (length (allTransactions s) =? 0)),
    error as [m|], (useRestAPI s); cbn;
    try reflexivity; try discriminate;
    destruct (allTransactions s); cbn; discriminate.
Qed.

(** X6: once Rest is selected while no record is held and nothing is
    pending, the component offers no way to query it: no view shows a
    "load more" button, the indexed query is skipped, and so every event
    the component offers for that address leaves it exactly as it is, with
    no request sent.  This is the state the "Try REST API instead" button
    leads to when the first indexed query has failed. *)
Theorem X6_rest_with_nothing_held_is_stuck {JS : Js.Engine} (w : World) (evs : list Event) :
  allTransactions (feed w) = [] ->
  useRestAPI (feed w) = true ->
  pending w = [] ->
  forallb (keepsAddress (address w)) evs = true ->
  allOffered w evs ->
  run evs w = w.
Proof.
  intros E U P. induction evs as [|e evs IH]; intros K O; [reflexivity|].
  cbn in K. apply andb_true_iff in K. destruct K as [Ke Kevs].
  destruct O as [Oe Oevs].
  assert (S : step w e = w).
  { destruct e as [a | data | | i r | ]; cbn [step].
    - cbn in Ke. now rewrite Ke.
    - now rewrite U.
    - destruct Oe as (loading & error & C).
      now rewrite render_nothing_held in C.
    - rewrite P. now destruct i.
    - destruct Oe as (loading & error & C).
      apply render_error_view_indexed in C. congruence. }
  cbn [run fold_left]. rewrite S in *. now apply IH.
Qed.

Lemma X6_rest_with_nothing_held_is_stuck_witness :
  let w0 := initialWorld "0xa11ce" in
  let w := step w0 TryRestClicked in
  tryRestClickable (render false (Some "Network error") (address w0) (feed w0))
    = true /\
  run [QueryCompleted (Some (samplePage 1000 100));
       Settled 0 GraphQLError;
       AddressChanged "0xa11ce"] w = w.
Proof.
  cbv zeta. split; [reflexivity|].
  refine (X6_rest_with_nothing_held_is_stuck _ _ _ _ _ _ _);
    try reflexivity.
  cbn. auto.
Defined.

(** ** Direction of a record *)

(** X7: a record is shown as Send exactly when it has a
    [user_transaction] whose sender is the queried address, and as Receive
    otherwise, also when the sender is missing.  For a record made from a
    Rest transaction this means: its type is "user_transaction" and its
    sender is the address. *)
Theorem X7_direction (a : string) (t : Transaction) (tx : Rest.Tx) :
  (direction a t = Send <->
     exists u, user_transaction t = Some u /\ sender u = Some a) /\
  (direction a t = Send \/ direction a t = Receive) /\
  (direction a (formatTransaction tx) = Send <->
     Rest.type tx = "user_transaction" /\ Rest.sender tx = Some a).
Proof.
  unfold direction, isSender. split; [|split].
  - destruct (user_transaction t) as [u|].
    + destruct (sender u) as [x|] eqn:Sx.
      * destruct (String.eqb_spec a x) as [->|N].
        -- split; [eauto|reflexivity].
        -- split; [discriminate|]. intros (u' & [= <-] & Su).
           congruence.
      * split; [discriminate|]. intros (u' & [= <-] & Su). congruence.
    + split; [discriminate|]. intros (u' & Hu & _). discriminate.
  - destruct (user_transaction t) as [u|]; [|now right].
    destruct (sender u) as [x|]; [|now right].
    destruct (String.eqb a x); [now left|now right].
  - unfold formatTransaction. cbn [user_transaction].
    destruct (String.eqb_spec (Rest.type tx) "user_transaction") as [T|T].
    + cbn [sender]. destruct (Rest.sender tx) as [x|].
      * destruct (String.eqb_spec a x) as [->|N].
        -- split; auto.
        -- split; [discriminate|]. intros [_ [= ->]]. congruence.
      * split; [discriminate|]. intros [_ ?]. discriminate.
    + split; [discriminate|]. intros [? _]. contradiction.
Qed.

(** ** getTransactionSender *)

(** X8: [getTransactionSender] never throws.  It returns a sender exactly
    when the fetch resolves with a status in 200-299 and a body that is an
    object with a non-empty [sender]; a failed fetch, another status, a
    body that does not parse, a null body, a missing sender and an empty
    sender all give null. *)
Theorem X8_getTransactionSender (fetch : Z -> Sender.FetchResult)
    (version : Z) :
  exists r,
    Sender.getTransactionSender fetch version = Js.Returned r /\
    forall s,
      r = Some s <->
      (s <> "" /\
       exists st, (200 <= st <= 299)%Z /\
         fetch version =
           Sender.FetchResolved
             {| Sender.status := st;
                Sender.body := Sender.BodyParsed (Sender.JsonObject (Some s)) |}).
Proof.
  unfold Sender.getTransactionSender, Sender.try_block.
  destruct (fetch version) as [|[st b]].
  - exists None. split; [reflexivity|]. intros s. split; [discriminate|].
    intros (_ & st & _ & ?). discriminate.
  - unfold Sender.ok. cbn [Sender.status Sender.body].
    destruct ((200 <=? st)%Z && (st <=? 299)%Z) eqn:Ok; cbn [negb].
    + apply andb_true_iff in Ok. destruct Ok as [O1 O2].
      apply Z.leb_le in O1. apply Z.leb_le in O2.
      destruct b as [|[|[s0|]|]]; cbn [Sender.senderOrNull].
      * exists None. split; [reflexivity|]. intros s.
        split; [discriminate|]. intros (_ & st' & _ & [= _ ?]). 
      * exists None. split; [reflexivity|]. intros s.
        split; [discriminate|]. intros (_ & st' & _ & [= _ ?]).
      * destruct (String.eqb_spec s0 "") as [->|N].
        -- exists None. split; [reflexivity|]. intros s.
           split; [discriminate|]. intros (Hs & st' & _ & [= _ <-]).
           congruence.
        -- exists (Some s0). split; [reflexivity|]. intros s. split.
           ++ intros [= <-]. split; [exact N|]. exists st. split; [lia|reflexivity].
           ++ intros (_ & st' & _ & [= _ ->]). reflexivity.
      * exists None. split; [reflexivity|]. intros s.
        split; [discriminate|]. intros (_ & st' & _ & [= _ ?]).
      * exists None. split; [reflexivity|]. intros s.
        split; [discriminate|]. intros (_ & st' & _ & [= _ ?]).
    + exists None. split; [reflexivity|]. intros s. split; [discriminate|].
      intros (_ & st' & [B1 B2] & [= -> _]).
      apply Z.leb_le in B1. apply Z.leb_le in B2.
      rewrite B1, B2 in Ok. discriminate.
Qed.

(** * Properties of the [Home] component *)

(** ** Strings *)

Arguments JsString.isWhiteSpace c : simpl never.

Lemma trimStart_startsClean (s : string) :
  JsString.startsClean (JsString.trimStart s).
Proof.
  induction s as [|c s IH]; cbn; [exact I|].
  destruct (JsString.isWhiteSpace c) eqn:W; [exact IH|exact W].
Qed.

Lemma trimStart_id (s : string) :
  JsString.startsClean s -> JsString.trimStart s = s.
Proof.
  destruct s as [|c s]; cbn; [reflexivity|]. now intros ->.
Qed.

Lemma trimEnd_startsClean (s : string) :
  JsString.startsClean s -> JsString.startsClean (JsString.trimEnd s).
Proof.
  destruct s as [|c s]; cbn; [auto|]. intros W.
  destruct (JsString.trimEnd s); [rewrite W|]; exact W.
Qed.

Lemma trimEnd_idem (s : string) :
  JsString.trimEnd (JsString.trimEnd s) = JsString.trimEnd s.
Proof.
  induction s as [|c s IH]; [reflexivity|]. cbn [JsString.trimEnd].
  destruct (JsString.trimEnd s) as [|c' kept] eqn:E.
  - destruct (JsString.isWhiteSpace c) eqn:W; [reflexivity|].
    cbn. now rewrite W.
  - cbn [JsString.trimEnd] in *. now rewrite IH.
Qed.

Lemma trim_idem (s : string) :
  JsString.trim (JsString.trim s) = JsString.trim s.
Proof.
  unfold JsString.trim.
  rewrite (trimStart_id (JsString.trimEnd (JsString.trimStart s))).
  - apply trimEnd_idem.
  - apply trimEnd_startsClean, trimStart_startsClean.
Qed.

Lemma truthy_true (s : string) : JsString.truthy s = true <-> s <> "".
Proof.
  unfold JsString.truthy. destruct (String.eqb_spec s ""); cbn; split;
    congruence.
Qed.

(** ** Submitting an address *)

Lemma handleAddressSubmit_blank (s : Home.State) :
  JsString.trim (Home.inputAddress s) = "" ->
  Home.handleAddressSubmit s = (s, None).
Proof.
  intros Ht. unfold Home.handleAddressSubmit. now rewrite Ht.
Qed.

Lemma handleAddressSubmit_accepts (s : Home.State) :
  JsString.trim (Home.inputAddress s) <> "" ->
  Home.handleAddressSubmit s =
    (Home.setAccountData None
       (Home.setLoading true
          (Home.setAddress (JsString.trim (Home.inputAddress s)) s)),
     Some (JsString.trim (Home.inputAddress s))).
Proof.
  intros Ht. unfold Home.handleAddressSubmit.
  pose proof (proj2 (truthy_true _) Ht) as T. rewrite T.
  unfold Home.fetchAccountData_start. rewrite T, trim_idem.
  apply String.eqb_neq in Ht. rewrite Ht. reflexivity.
Qed.

(** X9: a submit with an input that is empty or all white space changes
    nothing and fetches nothing.  Any other submit shows the trimmed input
    as the address and starts the account fetch for that same trimmed
    address: the fetch's own guard never refuses what the submit lets
    through. *)
Theorem X9_submit_trims_and_fetches (s : Home.State) :
  let t := JsString.trim (Home.inputAddress s) in
  (t = "" -> Home.handleAddressSubmit s = (s, None)) /\
  (t <> "" ->
   Home.handleAddressSubmit s =
     (Home.setAccountData None (Home.setLoading true (Home.setAddress t s)),
      Some t)).
Proof.
  split.
  - apply handleAddressSubmit_blank.
  - apply handleAddressSubmit_accepts.
Qed.

Lemma X9_submit_trims_and_fetches_witness :
  let s := Home.setInputAddress "  0xb0b  " Home.initialState in
  Home.handleAddressSubmit s =
    (Home.setAccountData None
       (Home.setLoading true (Home.setAddress "0xb0b" s)),
     Some "0xb0b").
Proof.
  refine (proj2 (X9_submit_trims_and_fetches
                   (Home.setInputAddress "  0xb0b  " Home.initialState)) _).
  vm_compute. discriminate.
Defined.

(** ** What an account fetch leaves *)

(** X10: when [fetchAccountData] finishes, [loading] is false and the
    address untouched.  Account data is set exactly when the four calls for
    info, modules, coins and the APT amount all succeed; it then holds
    their answers, lists under [coinData] exactly the coins of positive
    amount, and carries an empty NFT list if the NFT call failed.  If one
    of the four fails, the data is null and the NFT call is never made. *)
Theorem X10_fetch_outcome (target : string) (sdk : Home.SdkReplies)
    (s : Home.State) :
  let s' := fst (Home.fetchAccountData_settle target sdk s) in
  let calls := snd (Home.fetchAccountData_settle target sdk s) in
  Home.loading s' = false /\
  Home.address s' = Home.address s /\
  match Home.accountData s' with
  | Some d =>
      Home.getAccountInfo sdk = Js.Returned (Home.fund d) /\
      Home.getAccountModules sdk = Js.Returned (Home.modules d) /\
      Home.getAccountCoinsData sdk = Js.Returned (Home.allCoinData d) /\
      Home.getAccountCoinAmount sdk = Js.Returned (Home.coinCounts d) /\
      (forall c, In c (Home.coinData d) <->
                 In c (Home.allCoinData d) /\ (0 < Home.amount c)%Z) /\
      Home.nftData d =
        match Home.getAccountOwnedTokens sdk with
        | Js.Returned nfts => nfts
        | Js.Thrown => []
        end /\
      In (Home.GetAccountOwnedTokens target 50) calls
  | None =>
      (Home.getAccountInfo sdk = Js.Thrown \/
       Home.getAccountModules sdk = Js.Thrown \/
       Home.getAccountCoinsData sdk = Js.Thrown \/
       Home.getAccountCoinAmount sdk = Js.Thrown) /\
      ~ In (Home.GetAccountOwnedTokens target 50) calls
  end.
Proof.
  unfold Home.fetchAccountData_settle, Home.try_block.
  destruct sdk as [i m c n t]. cbn [Home.getAccountInfo Home.getAccountModules
    Home.getAccountCoinsData Home.getAccountCoinAmount Home.getAccountOwnedTokens].
  destruct i as [f|]; cbn.
  2:{ repeat split; auto. intros [H|[]]. discriminate. }
  destruct m as [ms|]; cbn.
  2:{ repeat split; auto. intros [H|[H|[]]]; discriminate. }
  destruct c as [coins|]; cbn.
  2:{ repeat split; auto. intros [H|[H|[H|[]]]]; discriminate. }
  destruct n as [apt|]; cbn.
  2:{ repeat split; auto 6. intros [H|[H|[H|[H|[]]]]]; discriminate. }
  assert (F : forall c0, In c0 (filter (fun coin => (0 <? Home.amount coin)%Z) coins)
                <-> In c0 coins /\ (0 < Home.amount c0)%Z).
  { intros c0. rewrite filter_In, Z.ltb_lt. reflexivity. }
  destruct t as [nfts|]; cbn; repeat split; auto 7; apply F; assumption.
Qed.

(** ** The address shown is never blank *)

Lemma handleAddressSubmit_address (s : Home.State) :
  JsString.trim (Home.address s) = Home.address s ->
  Home.address s <> "" ->
  let s' := fst (Home.handleAddressSubmit s) in
  JsString.trim (Home.address s') = Home.address s' /\
  Home.address s' <> "".
Proof.
  intros T N.
  destruct (String.eqb_spec (JsString.trim (Home.inputAddress s)) "") as [E|E].
  - rewrite (handleAddressSubmit_blank s E). auto.
  - rewrite (handleAddressSubmit_accepts s E). cbn.
    split; [apply trim_idem|exact E].
Qed.

Lemma started_state (w : Home.World) (r : Home.State * option string) :
  Home.state (Home.started w r) = fst r.
Proof. now destruct r as [s [t|]]. Qed.

Lemma fetchAccountData_start_address (target : string) (s : Home.State) :
  Home.address (fst (Home.fetchAccountData_start target s)) = Home.address s.
Proof.
  unfold Home.fetchAccountData_start.
  now destruct (negb (JsString.truthy target)
                || String.eqb (JsString.trim target) "").
Qed.

Lemma fetchAccountData_settle_address (target : string)
    (sdk : Home.SdkReplies) (s : Home.State) :
  Home.address (fst (Home.fetchAccountData_settle target sdk s))
    = Home.address s.
Proof.
  unfold Home.fetchAccountData_settle.
  destruct (Home.try_block target sdk) as [calls [d|]]; reflexivity.
Qed.

Lemma step_address (w : Home.World) (e : Home.Event) :
  JsString.trim (Home.address (Home.state w)) = Home.address (Home.state w) ->
  Home.address (Home.state w) <> "" ->
  JsString.trim (Home.address (Home.state (Home.step w e)))
    = Home.address (Home.state (Home.step w e)) /\
  Home.address (Home.state (Home.step w e)) <> "".
Proof.
  intros T N. destruct e as [ | v | key | | i sdk ]; cbn [Home.step].
  - rewrite started_state, fetchAccountData_start_address. auto.
  - cbn. auto.
  - rewrite started_state. unfold Home.handleKeyPress.
    destruct (String.eqb key "Enter"); [|cbn; auto].
    now apply handleAddressSubmit_address.
  - destruct (Home.searchDisabled (Home.state w)); [auto|].
    rewrite started_state. now apply handleAddressSubmit_address.
  - destruct (nth_error (Home.pending w) i) as [target|]; [|auto].
    pose proof (fetchAccountData_settle_address target sdk (Home.state w)) as A.
    destruct (Home.fetchAccountData_settle target sdk (Home.state w)) as [s' calls].
    cbn in *. rewrite A. auto.
Qed.

(** X11: whatever is typed, submitted, or answered by the ledger client,
    the address the page shows and hands to the transaction list is never
    empty and has no white space at either end. *)
Theorem X11_address_never_blank (evs : list Home.Event) :
  let a := Home.address (Home.state (Home.run evs Home.initialWorld)) in
  a <> "" /\ JsString.trim a = a.
Proof.
  cbv zeta.
  assert (G : forall w,
             JsString.trim (Home.address (Home.state w))
               = Home.address (Home.state w) ->
             Home.address (Home.state w) <> "" ->
             Home.address (Home.state (Home.run evs w)) <> "" /\
             JsString.trim (Home.address (Home.state (Home.run evs w)))
               = Home.address (Home.state (Home.run evs w))).
  { induction evs as [|e evs IH]; intros w T N; [auto|].
    cbn [Home.run fold_left].
    destruct (step_address w e T N) as [T' N']. now apply IH. }
  apply G; [vm_compute; reflexivity | vm_compute; discriminate].
Qed.

(** ** The Enter key is not held back by a running fetch *)



Lemma nth_error_snoc {A : Type} (l : list A) (x : A) :
  nth_error (l ++ [x]) (length l) = Some x.
Proof.
  rewrite nth_error_app2 by lia. now rewrite Nat.sub_diag.
Qed.

Lemma removeNth_snoc {A : Type} (l : list A) (x : A) :
  removeNth (length l) (l ++ [x]) = l.
Proof.
  unfold removeNth. rewrite firstn_app, skipn_app, Nat.sub_diag.
  replace (S (length l) - length l) with 1 by lia.
  rewrite firstn_all2, skipn_all2 by lia. cbn. now rewrite !app_nil_r.
Qed.

(** X13: nothing ties an answer to the address on screen.  When two
    submits overlap and the fetch of the earlier one finishes last, the
    page ends up not loading, showing the later address with the account
    data fetched for the earlier one. *)
Theorem X13_last_answer_wins (w : Home.World) (v1 v2 : string)
    (sdk1 sdk2 : Home.SdkReplies) :
  JsString.trim v1 <> "" ->
  JsString.trim v2 <> "" ->
  let n := length (Home.pending w) in
  let w' := Home.run [Home.InputChanged v1; Home.KeyPressed "Enter";
                      Home.InputChanged v2; Home.KeyPressed "Enter";
                      Home.FetchSettled (S n) sdk2;
                      Home.FetchSettled n sdk1] w in
  Home.address (Home.state w') = JsString.trim v2 /\
  Home.loading (Home.state w') = false /\
  Home.pending w' = Home.pending w /\
  Home.accountData (Home.state w') =
    Home.accountData
      (fst (Home.fetchAccountData_settle (JsString.trim v1) sdk1 (Home.state w))).
Proof.
  intros H1 H2 n w'. subst w'.
  cbn [Home.run fold_left].
  set (w1 := Home.step w (Home.InputChanged v1)).
  assert (E2 : Home.step w1 (Home.KeyPressed "Enter") =
               {| Home.state :=
                    Home.setAccountData None
                      (Home.setLoading true
                         (Home.setAddress (JsString.trim v1) (Home.state w1)));
                  Home.pending := Home.pending w ++ [JsString.trim v1];
                  Home.called := Home.called w |}).
  { cbn [Home.step]. unfold Home.handleKeyPress.
    cbn [String.eqb Ascii.eqb Bool.eqb].
    rewrite (handleAddressSubmit_accepts (Home.state w1) H1). reflexivity. }
  rewrite E2. clear E2.
  match goal with |- context [Home.step (Home.step ?x (Home.InputChanged v2)) _] =>
    set (w3 := Home.step x (Home.InputChanged v2)) end.
  assert (E4 : Home.step w3 (Home.KeyPressed "Enter") =
               {| Home.state :=
                    Home.setAccountData None
                      (Home.setLoading true
                         (Home.setAddress (JsString.trim v2) (Home.state w3)));
                  Home.pending :=
                    (Home.pending w ++ [JsString.trim v1]) ++ [JsString.trim v2];
                  Home.called := Home.called w |}).
  { cbn [Home.step]. unfold Home.handleKeyPress.
    cbn [String.eqb Ascii.eqb Bool.eqb].
    rewrite (handleAddressSubmit_accepts (Home.state w3) H2). reflexivity. }
  rewrite E4. clear E4.
  cbn [Home.step Home.pending Home.state Home.called].
  assert (Sn : S n = length (Home.pending w ++ [JsString.trim v1]))
    by (rewrite length_app; cbn [length]; subst n; lia).
  rewrite Sn, nth_error_snoc, removeNth_snoc.
  destruct (Home.fetchAccountData_settle (JsString.trim v2) sdk2 _)
    as [s5 calls5] eqn:S5.
  cbn [Home.step Home.pending Home.state Home.called].
  subst n. rewrite nth_error_snoc.
  assert (A5 : Home.address s5 = JsString.trim v2).
  { pose proof (fetchAccountData_settle_address (JsString.trim v2) sdk2
                 (Home.setAccountData None
                    (Home.setLoading true
                       (Home.setAddress (JsString.trim v2) (Home.state w3))))) as A.
    rewrite S5 in A. exact A. }
  unfold Home.fetchAccountData_settle.
  destruct (Home.try_block (JsString.trim v1) sdk1) as [calls1 [d|]];
    cbn; rewrite removeNth_snoc, A5; repeat split.
Qed.

Lemma X13_last_answer_wins_witness :
  let failing := {| Home.getAccountInfo := Js.Thrown;
                    Home.getAccountModules := Js.Thrown;
                    Home.getAccountCoinsData := Js.Thrown;
                    Home.getAccountCoinAmount := Js.Thrown;
                    Home.getAccountOwnedTokens := Js.Thrown |} in
  let answering := {| Home.getAccountInfo :=
                        Js.Returned {| Home.sequence_number := Some "7" |};
                      Home.getAccountModules := Js.Returned [];
                      Home.getAccountCoinsData := Js.Returned [];
                      Home.getAccountCoinAmount := Js.Returned 100%Z;
                      Home.getAccountOwnedTokens := Js.Thrown |} in
  let w' := Home.run [Home.InputChanged "0xa11ce"; Home.KeyPressed "Enter";
                      Home.InputChanged "0xb0b"; Home.KeyPressed "Enter";
                      Home.FetchSettled 1 failing;
                      Home.FetchSettled 0 answering] Home.initialWorld in
  Home.address (Home.state w') = "0xb0b" /\
  Home.loading (Home.state w') = false /\
  Home.pending w' = [] /\
  Home.accountData (Home.state w') =
    Home.accountData
      (fst (Home.fetchAccountData_settle "0xa11ce" answering Home.initialState)).
Proof.
  cbv zeta.
  refine (X13_last_answer_wins Home.initialWorld "0xa11ce" "0xb0b" _ _ _ _);
    vm_compute; discriminate.
Defined.

(** ** The NFT gallery *)

(** X14: the gallery shows the first eight NFTs at most, in their order,
    and the note "Showing 8 of N" appears exactly when some NFT is left
    out, with N the number held. *)
Theorem X14_nft_gallery (d : Home.AccountData) :
  let shown := Home.shownNfts d in
  let held := Home.nftData d in
  length shown = Nat.min 8 (length held) /\
  (exists hidden, held = shown ++ hidden /\
     (Home.nftNote d = None <-> hidden = []) /\
     (forall n, Home.nftNote d = Some n ->
        n = length held /\ length shown = 8 /\ hidden <> [])).
Proof.
  cbv zeta. unfold Home.shownNfts, Home.nftNote.
  split; [apply length_firstn|].
  exists (skipn 8 (Home.nftData d)).
  split; [symmetry; apply firstn_skipn|].
  assert (L : length (skipn 8 (Home.nftData d)) = length (Home.nftData d) - 8)
    by apply length_skipn.
  destruct (8 <? length (Home.nftData d)) eqn:E.
  - apply Nat.ltb_lt in E. split.
    + split; [discriminate|]. intros Hh. rewrite Hh in L. cbn in L. lia.
    + intros n [= <-]. split; [reflexivity|]. split.
      * rewrite length_firstn. lia.
      * intros Hh. rewrite Hh in L. cbn in L. lia.
  - apply Nat.ltb_ge in E. split; [|discriminate].
    split; [|reflexivity]. intros _.
    destruct (skipn 8 (Home.nftData d)); [reflexivity|].
    cbn [length] in L. lia.
Qed.

(** ** The name on an asset card *)

Lemma append_nil_r (s : string) : (s ++ "")%string = s.
Proof. induction s as [|c s IH]; cbn; [reflexivity|now rewrite IH]. Qed.

Lemma append_assoc (a b c : string) :
  ((a ++ b) ++ c)%string = (a ++ (b ++ c))%string.
Proof. induction a as [|x a IH]; cbn; [reflexivity|now rewrite IH]. Qed.

(** Up to the first [::], [split] reads a piece without colon whole. *)
Lemma splitFrom_piece (a rest cur : string) :
  JsString.noColon a = true ->
  JsString.splitFrom cur (a ++ String JsString.colon (String JsString.colon rest))
    = (cur ++ a)%string :: JsString.splitFrom "" rest.
Proof.
  revert cur. induction a as [|c a IH]; intros cur N.
  - cbn [append JsString.splitFrom]. rewrite Ascii.eqb_refl, append_nil_r.
    reflexivity.
  - cbn [JsString.noColon] in N. apply andb_true_iff in N. destruct N as [Nc Na].
    apply negb_true_iff in Nc.
    cbn [append]. cbn [JsString.splitFrom].
    assert (R : forall r,
               match (a ++ String JsString.colon (String JsString.colon rest))%string with
               | EmptyString => r
               | String c' rest' =>
                   if Ascii.eqb c JsString.colon && Ascii.eqb c' JsString.colon
                   then cur :: JsString.splitFrom "" rest'
                   else r
               end = r).
    { intros r. rewrite Nc.
      now destruct (a ++ String JsString.colon (String JsString.colon rest))%string. }
    rewrite R, (IH _ Na), append_assoc. reflexivity.
Qed.

Lemma splitFrom_last (a cur : string) :
  JsString.noColon a = true ->
  JsString.splitFrom cur a = [(cur ++ a)%string].
Proof.
  revert cur. induction a as [|c a IH]; intros cur N.
  - cbn. now rewrite append_nil_r.
  - cbn [JsString.noColon] in N. apply andb_true_iff in N. destruct N as [Nc Na].
    apply negb_true_iff in Nc. cbn [JsString.splitFrom]. rewrite Nc.
    cbn [andb]. rewrite (IH _ Na), append_assoc.
    now destruct a.
Qed.

Lemma splitFrom_nonempty (s cur : string) :
  exists first others, JsString.splitFrom cur s = first :: others.
Proof.
  revert cur. induction s as [|c s IH]; intros cur;
    [do 2 eexists; reflexivity|].
  cbn [JsString.splitFrom]. destruct s as [|c' s']; [do 2 eexists; reflexivity|].
  destruct (Ascii.eqb c JsString.colon && Ascii.eqb c' JsString.colon);
    [do 2 eexists; reflexivity|apply IH].
Qed.

(** X15: for an asset type [address::module::rest] whose address and
    module have no colon, the card is titled with [rest] up to its first
    [::] (all of [rest] when it has no colon), or "Unknown Token" when
    that piece is empty.  An asset type without any colon, such as a bare
    object address, and a missing one are titled "Unknown Token". *)
Theorem X15_token_name (a m rest : string) (coin bare : Home.Coin) :
  JsString.noColon a = true ->
  JsString.noColon m = true ->
  Home.asset_type coin = Some (a ++ "::" ++ m ++ "::" ++ rest)%string ->
  (exists first others,
     JsString.split rest = first :: others /\
     Home.tokenName coin = if JsString.truthy first then first
                           else "Unknown Token") /\
  (JsString.noColon rest = true -> rest <> "" -> Home.tokenName coin = rest) /\
  ((Home.asset_type bare = None \/
    exists t, Home.asset_type bare = Some t /\ JsString.noColon t = true) ->
   Home.tokenName bare = "Unknown Token").
Proof.
  intros Na Nm T.
  assert (S : JsString.split (a ++ "::" ++ m ++ "::" ++ rest)%string
              = a :: m :: JsString.split rest).
  { unfold JsString.split.
    change ("::" ++ m ++ "::" ++ rest)%string
      with (String JsString.colon (String JsString.colon (m ++ "::" ++ rest)))%string.
    rewrite (splitFrom_piece a _ "" Na). cbn [append].
    change ("::" ++ rest)%string
      with (String JsString.colon (String JsString.colon rest)).
    rewrite (splitFrom_piece m _ "" Nm). reflexivity. }
  assert (G : forall first others, JsString.split rest = first :: others ->
              Home.tokenName coin = if JsString.truthy first then first
                                    else "Unknown Token").
  { intros first others R. unfold Home.tokenName.
    rewrite T, S, R. reflexivity. }
  split; [|split].
  - destruct (splitFrom_nonempty rest "") as (first & others & R).
    exists first, others. split; [exact R|]. exact (G first others R).
  - intros Nr Hr. rewrite (G rest []).
    + apply truthy_true in Hr. now rewrite Hr.
    + unfold JsString.split. now rewrite splitFrom_last.
  - intros [B | (t & B & Nt)]; unfold Home.tokenName; rewrite B; [reflexivity|].
    unfold JsString.split. rewrite (splitFrom_last t "" Nt). reflexivity.
Qed.

Lemma X15_token_name_witness :
  let coin := {| Home.amount := 5%Z;
                 Home.asset_type := Some "0x1::aptos_coin::AptosCoin";
                 Home.metadata := None |} in
  Home.tokenName coin = "AptosCoin".
Proof.
  refine (proj1 (proj2
    (X15_token_name "0x1" "aptos_coin" "AptosCoin"
       {| Home.amount := 5%Z;
          Home.asset_type := Some "0x1::aptos_coin::AptosCoin";
          Home.metadata := None |}
       {| Home.amount := 0%Z; Home.asset_type := None; Home.metadata := None |}
       eq_refl eq_refl eq_refl)) eq_refl _).
  discriminate.
Defined.
